(** * DelFTA calculator: a shallow embedding of [delfta/calculator.py]

    The development follows the class [DelftaCalculator]: the model
    resolver of [__init__], the validator [_preprocess] with its five
    checks, the baseline provider [_get_xtb_props], the aggregation,
    delta correction and result assembly of [predict], and the
    streaming driver [_predict_batch].

    Python exceptions are the [Raise] branch of [result]; objects that
    the code mutates in place (openbabel molecules) live in a store
    indexed by locations; anything the repository imports from other
    packages (the network, the xTB binary, the openbabel operations,
    the floating-point arithmetic of numpy) is a field of the class
    [Externals]. *)

From stdpp Require Import gmap strings list fin_maps sorting.
From Stdlib Require Import ZArith Ascii.

Open Scope string_scope.
Open Scope list_scope.
Open Scope nat_scope.

(** ** Exceptions and fallible results *)

Inductive exn : Type :=
| ValueError (msg : string)
| AttributeError (msg : string)
| IndexError (msg : string)
| KeyError (msg : string)
| TypeError (msg : string)
| ExternalError (msg : string).

Inductive result (A : Type) : Type :=
| Ok (a : A)
| Raise (e : exn).

Arguments Ok {A} a.
Arguments Raise {A} e.

Definition rbind {A B : Type} (r : result A) (k : A → result B) : result B :=
  match r with
  | Ok a => k a
  | Raise e => Raise e
  end.

Declare Scope result_scope.
Delimit Scope result_scope with res.
Notation "'do' x <- r ; k" := (rbind r (λ x, k))
  (at level 10, x name, r at level 100, k at level 200) : result_scope.
Notation "'do' ' p <- r ; k" := (rbind r (λ x, let 'p := x in k))
  (at level 10, p pattern, r at level 100, k at level 200) : result_scope.
Open Scope result_scope.

Definition is_ok {A : Type} (r : result A) : bool :=
  match r with Ok _ => true | Raise _ => false end.

(** [for x in xs: acc = f(acc, x)] where the body may raise. *)
Fixpoint fold_res {A B : Type} (f : B → A → result B) (xs : list A) (acc : B)
  : result B :=
  match xs with
  | [] => Ok acc
  | x :: rest => do acc' <- f acc x; fold_res f rest acc'
  end.

(** [[f(x) for x in xs]] where [f] may raise. *)
Fixpoint map_res {A B : Type} (f : A → result B) (xs : list A) : result (list B) :=
  match xs with
  | [] => Ok []
  | x :: rest => do y <- f x; do ys <- map_res f rest; Ok (y :: ys)
  end.

(** ** Strings as Python uses them *)

(** [sub in s] *)
Definition str_contains (sub s : string) : bool :=
  match String.index 0 sub s with
  | Some _ => true
  | None => false
  end.

(** The characters of a string, each as a one-character string: what
    [for task in tasks] iterates over when [tasks] is a [str]. *)
Fixpoint str_chars (s : string) : list string :=
  match s with
  | EmptyString => []
  | String c rest => String c EmptyString :: str_chars rest
  end.

(** [s.rsplit("_", maxsplit=1)[0]]: the part of [s] before its last
    underscore, or [s] itself when it has none. *)
Fixpoint rsplit_head (s : string) : option string :=
  match s with
  | EmptyString => None
  | String c rest =>
      match rsplit_head rest with
      | Some pre => Some (String c pre)
      | None => if Ascii.eqb c "_"%char then Some EmptyString else None
      end
  end.

Definition rsplit1_first (s : string) : string :=
  default s (rsplit_head s).

(** ** Module constants *)

Definition _ALLTASKS : list string :=
  ["E_form"; "E_homo"; "E_lumo"; "E_gap"; "dipole"; "charges"].

(** ** The [tasks] argument of the constructor: a string or a list *)

Inductive tasks_arg : Type :=
| TasksStr (s : string)
| TasksList (l : list string).

Definition tasks_arg_eqb (a b : tasks_arg) : bool :=
  match a, b with
  | TasksStr s, TasksStr t => bool_decide (s = t)
  | TasksList l, TasksList k => bool_decide (l = k)
  | _, _ => false
  end.

(** What [for task in tasks] yields. *)
Definition iter_tasks (t : tasks_arg) : list string :=
  match t with
  | TasksStr s => str_chars s
  | TasksList l => l
  end.

(** [if tasks == "all" or tasks == ["all"]: tasks = _ALLTASKS] *)
Definition expand_tasks (t : tasks_arg) : tasks_arg :=
  if tasks_arg_eqb t (TasksStr "all") || tasks_arg_eqb t (TasksList ["all"])
  then TasksList _ALLTASKS
  else t.

(** ** Python dictionaries, in insertion order *)

Fixpoint dict_get {V : Type} (k : string) (d : list (string * V)) : option V :=
  match d with
  | [] => None
  | (k', v) :: rest => if bool_decide (k = k') then Some v else dict_get k rest
  end.

(** [d[k] = v]: an existing key keeps its place, a new one goes last. *)
Fixpoint dict_set {V : Type} (k : string) (v : V) (d : list (string * V))
  : list (string * V) :=
  match d with
  | [] => [(k, v)]
  | (k', v') :: rest =>
      if bool_decide (k = k') then (k, v) :: rest
      else (k', v') :: dict_set k v rest
  end.

(** [l[i:j]] for non-negative [i], [j]. *)
Definition py_slice {A : Type} (i j : nat) (l : list A) : list A :=
  take (j - i) (drop i l).

(** All rows of a nested list have one length. *)
Definition rectangular {A : Type} (rows : list (list A)) : bool :=
  match rows with
  | [] => true
  | r :: rest => forallb (λ r', Nat.eqb (length r') (length r)) rest
  end.

(** ** Molecules and the object store *)

(** What the code reads of a [pybel.Molecule]: the atomic numbers of
    [mol.atoms], [mol.charge] and [mol.dim]. *)
Record molecule : Type := Molecule {
  atoms : list Z;
  charge : Z;
  dim : Z
}.

Global Instance molecule_inhabited : Inhabited molecule :=
  populate (Molecule [] 0 0).

Definition loc : Type := positive.

(** An element of the input list: a reference to a molecule object, or
    an object of any other type (for which [isinstance] is false). *)
Inductive pyobj : Type :=
| PyMolecule (l : loc)
| PyOther.

(** The five checks of the validator, in the order of the source. *)
Inductive check : Type :=
| Structure
| AtomType
| Charge
| Geometry
| Hydrogen.

Global Instance check_eq_dec : EqDecision check.
Proof. solve_decision. Defined.

(** ** numpy *)

Section Numpy.

(** The type of floating-point numbers. *)
Variable F : Type.

(** *** Arrays of up to two dimensions

    A 2-d array is the list of its rows. *)

Inductive ndarray : Type :=
| A0 (x : F)
| A1 (xs : list F)
| A2 (rows : list (list F)).

Definition broadcast_error : exn :=
  ValueError "operands could not be broadcast together".

(** Broadcasting along the last axis: equal lengths pair up, a length
    of one stretches. *)
Definition bc_row (f : F → F → F) (xs ys : list F) : result (list F) :=
  if Nat.eqb (length xs) (length ys) then Ok (zip_with f xs ys)
  else match xs, ys with
       | [x], _ => Ok (map (f x) ys)
       | _, [y] => Ok (map (λ x, f x y) xs)
       | _, _ => Raise broadcast_error
       end.

Definition bc_rows (f : F → F → F) (xss yss : list (list F))
  : result (list (list F)) :=
  if Nat.eqb (length xss) (length yss)
  then map_res (λ p, bc_row f p.1 p.2) (zip xss yss)
  else match xss, yss with
       | [xs], _ => map_res (bc_row f xs) yss
       | _, [ys] => map_res (λ xs, bc_row f xs ys) xss
       | _, _ => Raise broadcast_error
       end.

(** An element-wise binary operation with broadcasting ([a + b],
    [a * b]). *)
Definition np_binop (f : F → F → F) (a b : ndarray) : result ndarray :=
  match a, b with
  | A0 x, A0 y => Ok (A0 (f x y))
  | A0 x, A1 ys => Ok (A1 (map (f x) ys))
  | A1 xs, A0 y => Ok (A1 (map (λ x, f x y) xs))
  | A0 x, A2 yss => Ok (A2 (map (map (f x)) yss))
  | A2 xss, A0 y => Ok (A2 (map (map (λ x, f x y)) xss))
  | A1 xs, A1 ys => do r <- bc_row f xs ys; Ok (A1 r)
  | A1 xs, A2 yss => do r <- map_res (bc_row f xs) yss; Ok (A2 r)
  | A2 xss, A1 ys => do r <- map_res (λ xs, bc_row f xs ys) xss; Ok (A2 r)
  | A2 xss, A2 yss => do r <- bc_rows f xss yss; Ok (A2 r)
  end.

Definition atleast_2d (a : ndarray) : list (list F) :=
  match a with
  | A0 x => [[x]]
  | A1 xs => [xs]
  | A2 rows => rows
  end.

(** [np.vstack(arrs)] *)
Definition np_vstack (arrs : list ndarray) : result ndarray :=
  match arrs with
  | [] => Raise (ValueError "need at least one array to concatenate")
  | _ =>
      let rows := concat (map atleast_2d arrs) in
      if rectangular rows then Ok (A2 rows)
      else Raise (ValueError "all the input array dimensions except for the concatenation axis must match exactly")
  end.

(** [a.squeeze()]: every axis of length one is dropped. *)
Definition np_squeeze (a : ndarray) : ndarray :=
  match a with
  | A0 x => A0 x
  | A1 [x] => A0 x
  | A1 xs => A1 xs
  | A2 [[x]] => A0 x
  | A2 [row] => A1 row
  | A2 rows =>
      if forallb (λ r, Nat.eqb (length r) 1) rows then A1 (concat rows)
      else A2 rows
  end.

(** [a[:, k]] *)
Definition np_column (a : ndarray) (k : nat) : result ndarray :=
  match a with
  | A2 rows =>
      do col <- map_res (λ r : list F,
                  match r !! k with
                  | Some x => Ok x
                  | None => Raise (IndexError "index is out of bounds for axis 1")
                  end) rows;
      Ok (A1 col)
  | _ => Raise (IndexError "too many indices for array")
  end.

(** [a[i:j]] *)
Definition np_slice (a : ndarray) (i j : nat) : result ndarray :=
  match a with
  | A0 _ => Raise (IndexError "invalid index to scalar variable")
  | A1 xs => Ok (A1 (py_slice i j xs))
  | A2 rows => Ok (A2 (py_slice i j rows))
  end.

(** Iterating over an array yields its entries along the first axis. *)
Definition np_iter (a : ndarray) : result (list ndarray) :=
  match a with
  | A0 _ => Raise (TypeError "iteration over a 0-d array")
  | A1 xs => Ok (map A0 xs)
  | A2 rows => Ok (map A1 rows)
  end.

(** A value of the baseline tool: a number, or a list of numbers (the
    per-atom charges). *)
Inductive xval : Type :=
| XScalar (x : F)
| XVec (xs : list F).

Definition xscalar (v : xval) : option F :=
  match v with XScalar x => Some x | XVec _ => None end.

Definition xvec (v : xval) : option (list F) :=
  match v with XVec xs => Some xs | XScalar _ => None end.

(** [np.array(v)] of one baseline value. *)
Definition np_array_val (v : xval) : ndarray :=
  match v with
  | XScalar x => A0 x
  | XVec xs => A1 xs
  end.

(** [np.array(vals, dtype=np.float32)] of a list of baseline values. *)
Definition np_array_f32 (f32 : F → F) (vals : list xval) : result ndarray :=
  let inhomogeneous :=
    ValueError "setting an array element with a sequence" in
  match mapM xscalar vals with
  | Some xs => Ok (A1 (map f32 xs))
  | None =>
      match mapM xvec vals with
      | Some rows =>
          if rectangular rows then Ok (A2 (map (map f32) rows))
          else Raise inhomogeneous
      | None => Raise inhomogeneous
      end
  end.

(** The entries of the normalisation table [norm.pt]. *)
Record norm_dict : Type := NormDict {
  scale : ndarray;
  location : ndarray
}.

Record norm_table : Type := NormTable {
  norm_direct : norm_dict;
  norm_delta : norm_dict
}.

End Numpy.

Arguments A0 {F} x.
Arguments A1 {F} xs.
Arguments A2 {F} rows.
Arguments XScalar {F} x.
Arguments XVec {F} xs.
Arguments NormDict {F} scale location.
Arguments NormTable {F} norm_direct norm_delta.
Arguments scale {F} n.
Arguments location {F} n.
Arguments norm_direct {F} n.
Arguments norm_delta {F} n.
Arguments bc_row {F} f xs ys.
Arguments bc_rows {F} f xss yss.
Arguments np_binop {F} f a b.
Arguments atleast_2d {F} a.
Arguments np_vstack {F} arrs.
Arguments np_squeeze {F} a.
Arguments np_column {F} a k.
Arguments np_slice {F} a i j.
Arguments np_iter {F} a.
Arguments xscalar {F} v.
Arguments xvec {F} v.
Arguments np_array_val {F} v.
Arguments np_array_f32 {F} f32 vals.

(** ** What the repository imports *)

Class Externals (F : Type) : Type := {
  (** numpy's addition and multiplication of floating-point numbers,
      the conversion [dtype=np.float32], and [float("NaN")]; no law of
      arithmetic is assumed of them *)
  fadd : F → F → F;
  fmul : F → F → F;
  f32 : F → F;
  NaN : F;
  (** [delfta.net_utils.MULTITASK_ENDPOINTS]: task name to the column
      of the multitask model's output *)
  MULTITASK_ENDPOINTS : gmap string nat;
  (** [delfta.net_utils.QMUGS_ATOM_DICT]: keyed by the supported atomic
      numbers *)
  QMUGS_ATOM_DICT : gmap Z nat;
  (** openbabel's [mol.make3D()], [mol.removeh()] and [mol.addh()], as
      the change each makes to the molecule it is called on *)
  ob_make3D : molecule → molecule;
  ob_removeh : molecule → molecule;
  ob_addh : molecule → molecule;
  (** [run_xtb_calc(mol, opt)]: a dictionary of properties, or the
      exception of a failed run *)
  run_xtb_calc : molecule → bool → result (list (string * xval F));
  (** the network named [model_name] run on one batch of molecules:
      [model(batch).numpy()] *)
  net : string → list molecule → ndarray F
}.

Section Calculator.

Context {F : Type} {E : Externals F}.

(** ** The calculator object and its constructor *)

Record calculator : Type := Calculator {
  tasks : tasks_arg;
  delta : bool;
  multitasks : list string;
  force3d : bool;
  addh : bool;
  xtbopt : bool;
  verbose : bool;
  progress : bool;
  norm : norm_table F;
  models : list string
}.

(** [task in MULTITASK_ENDPOINTS] *)
Definition in_endpoints (task : string) : bool :=
  bool_decide (is_Some (MULTITASK_ENDPOINTS !! task)).

(** The [if]/[elif] chain of the constructor's loop body. *)
Definition task_group (task : string) : result string :=
  if in_endpoints task then Ok "multitask"
  else if bool_decide (task = "charges") then Ok "charges"
  else if bool_decide (task = "E_form") then Ok "single_energy"
  else Raise (ValueError ("Task name `" +:+ task +:+ "` not recognised")).

Definition mode_suffix (delta : bool) : string :=
  if delta then "_delta" else "_direct".

(** One iteration of [for task in tasks], appending to [self.models]. *)
Definition resolve_step (delta : bool) (models : list string) (task : string)
  : result (list string) :=
  do task_name <- task_group task;
  Ok (models ++ [task_name +:+ mode_suffix delta]).

(** [list(set(models))]: the distinct names, in an order the language
    does not fix. *)
Definition list_of_set (models : list string) : list string :=
  elements (list_to_set models : gset string).

(** The constructor; [norm_pt] is the unpickled content of [norm.pt]. *)
Definition __init__ (tasks : tasks_arg)
    (delta force3d addh xtbopt verbose progress : bool)
    (norm_pt : norm_table F) : result calculator :=
  let tasks := expand_tasks tasks in
  let multitasks := List.filter in_endpoints (iter_tasks tasks) in
  do models <- fold_res (resolve_step delta) (iter_tasks tasks) [];
  Ok (Calculator tasks delta multitasks force3d addh xtbopt verbose progress
        norm_pt (list_of_set models)).

(** ** The validator *)

(** The state of [_preprocess]: the object store, the five diagnostic
    lists and [fatal]; [trace] records each call of a check method,
    with the position of the molecule it is called on. *)
Record vstate : Type := VState {
  store : gmap loc molecule;
  trace : list (nat * check);
  idx_non_valid_mols : list nat;
  idx_non_valid_atypes : list nat;
  idx_charged : list nat;
  idx_no3d : list nat;
  idx_noh : list nat;
  fatal : list nat
}.

Definition init_vstate (h : gmap loc molecule) : vstate :=
  VState h [] [] [] [] [] [] [].

Definition log (idx : nat) (c : check) (st : vstate) : vstate :=
  VState (store st) (trace st ++ [(idx, c)]) (idx_non_valid_mols st)
    (idx_non_valid_atypes st) (idx_charged st) (idx_no3d st) (idx_noh st)
    (fatal st).

Definition set_store (h : gmap loc molecule) (st : vstate) : vstate :=
  VState h (trace st) (idx_non_valid_mols st) (idx_non_valid_atypes st)
    (idx_charged st) (idx_no3d st) (idx_noh st) (fatal st).

Definition add_non_valid_mol (idx : nat) (st : vstate) : vstate :=
  VState (store st) (trace st) (idx_non_valid_mols st ++ [idx])
    (idx_non_valid_atypes st) (idx_charged st) (idx_no3d st) (idx_noh st)
    (fatal st).

Definition add_non_valid_atype (idx : nat) (st : vstate) : vstate :=
  VState (store st) (trace st) (idx_non_valid_mols st)
    (idx_non_valid_atypes st ++ [idx]) (idx_charged st) (idx_no3d st)
    (idx_noh st) (fatal st).

Definition add_charged (idx : nat) (st : vstate) : vstate :=
  VState (store st) (trace st) (idx_non_valid_mols st)
    (idx_non_valid_atypes st) (idx_charged st ++ [idx]) (idx_no3d st)
    (idx_noh st) (fatal st).

Definition add_no3d (idx : nat) (st : vstate) : vstate :=
  VState (store st) (trace st) (idx_non_valid_mols st)
    (idx_non_valid_atypes st) (idx_charged st) (idx_no3d st ++ [idx])
    (idx_noh st) (fatal st).

Definition add_noh (idx : nat) (st : vstate) : vstate :=
  VState (store st) (trace st) (idx_non_valid_mols st)
    (idx_non_valid_atypes st) (idx_charged st) (idx_no3d st)
    (idx_noh st ++ [idx]) (fatal st).

Definition add_fatal (idx : nat) (st : vstate) : vstate :=
  VState (store st) (trace st) (idx_non_valid_mols st)
    (idx_non_valid_atypes st) (idx_charged st) (idx_no3d st) (idx_noh st)
    (fatal st ++ [idx]).

(** [isinstance(mol, Molecule) and len(mol.atoms) > 0] *)
Definition _molcheck (self : calculator) (h : gmap loc molecule)
    (mol : pyobj) : bool :=
  match mol with
  | PyMolecule l => bool_decide (0 < length (atoms (h !!! l)))
  | PyOther => false
  end.

Definition _atomtypecheck (self : calculator) (h : gmap loc molecule)
    (l : loc) : bool :=
  forallb (λ atomicnum, bool_decide (is_Some (QMUGS_ATOM_DICT !! atomicnum)))
    (atoms (h !!! l)).

(** [True] when the molecule is charged. *)
Definition _chargecheck (self : calculator) (h : gmap loc molecule)
    (l : loc) : bool :=
  if negb (Z.eqb (charge (h !!! l)) 0) then true else false.

(** Returns whether the molecule has 3d coordinates; embeds it in
    place when it has none and [force3d] is set. *)
Definition _3dcheck (self : calculator) (h : gmap loc molecule) (l : loc)
  : bool * gmap loc molecule :=
  if negb (Z.eqb (dim (h !!! l)) 3) then
    (false, if force3d self then <[l := ob_make3D (h !!! l)]> h else h)
  else (true, h).

(** [sum([True for atom in mol.atoms if atom.atomicnum == 1])] *)
Definition count_hydrogens (m : molecule) : nat :=
  length (List.filter (λ atomicnum, Z.eqb atomicnum 1) (atoms m)).

(** [mol.clone] allocates a copy; [removeh] and [addh] act on it. *)
Definition _hydrogencheck (self : calculator) (h : gmap loc molecule)
    (l : loc) : bool * gmap loc molecule :=
  let nh_mol := count_hydrogens (h !!! l) in
  let mol_cpy := fresh (dom h) in
  let h := <[mol_cpy := h !!! l]> h in
  let h := <[mol_cpy := ob_removeh (h !!! mol_cpy)]> h in
  let h := <[mol_cpy := ob_addh (h !!! mol_cpy)]> h in
  let nh_cpy := count_hydrogens (h !!! mol_cpy) in
  (if Nat.eqb nh_mol nh_cpy then true else false, h).

(** The body of [for idx, mol in enumerate(mols)]. *)
Definition preprocess_step (self : calculator) (st : vstate) (idx : nat)
    (mol : pyobj) : vstate :=
  let st := log idx Structure st in
  let valid_mol := _molcheck self (store st) mol in
  if negb valid_mol then add_fatal idx (add_non_valid_mol idx st)
  else
    match mol with
    | PyOther => st (* not reached: [_molcheck] is false here *)
    | PyMolecule l =>
        let st := log idx AtomType st in
        let is_atype_valid := _atomtypecheck self (store st) l in
        if negb is_atype_valid
        then add_fatal idx (add_non_valid_atype idx st)
        else
          let st := log idx Charge st in
          let is_charged := _chargecheck self (store st) l in
          if is_charged then add_fatal idx (add_charged idx st)
          else
            let st := log idx Geometry st in
            let (has_3d, h3d) := _3dcheck self (store st) l in
            let st := set_store h3d st in
            let st := if negb has_3d then add_no3d idx st else st in
            let st := log idx Hydrogen st in
            let (has_h, hh) := _hydrogencheck self (store st) l in
            let st := set_store hh st in
            let st := if negb has_h then add_noh idx st else st in
            if negb has_3d && negb has_h && negb (addh self)
            then add_fatal idx st
            else st
    end.

Fixpoint preprocess_loop (self : calculator) (idx : nat) (mols : list pyobj)
    (st : vstate) : vstate :=
  match mols with
  | [] => st
  | mol :: rest =>
      preprocess_loop self (S idx) rest (preprocess_step self st idx mol)
  end.

(** [[mol for idx, mol in enumerate(mols) if idx not in fatal]] *)
Fixpoint select_good (idx : nat) (mols : list pyobj) (fatal : list nat)
  : list pyobj :=
  match mols with
  | [] => []
  | mol :: rest =>
      if bool_decide (idx ∈ fatal) then select_good (S idx) rest fatal
      else mol :: select_good (S idx) rest fatal
  end.

(** [_preprocess]: the final state holds [fatal] and the diagnostic
    lists; [good_mols] is computed from it. *)
Definition _preprocess (self : calculator) (mols : list pyobj)
    (h : gmap loc molecule) : result vstate :=
  if Nat.eqb (length mols) 0 then Raise (ValueError "No molecules provided.")
  else Ok (preprocess_loop self 0 mols (init_vstate h)).

Definition good_mols (mols : list pyobj) (st : vstate) : list pyobj :=
  select_good 0 mols (fatal st).

(** ** The baseline provider *)

(** The molecule a reference denotes. *)
Definition mol_of (h : gmap loc molecule) (o : pyobj) : molecule :=
  match o with
  | PyMolecule l => h !!! l
  | PyOther => inhabitant
  end.

(** [xtb_props[prop]] of a [defaultdict(list)]. *)
Definition xtb_get (prop : string) (xtb_props : list (string * list (xval F)))
  : list (xval F) :=
  default [] (dict_get prop xtb_props).

(** [xtb_props[prop].append(val)] *)
Definition xtb_append (xtb_props : list (string * list (xval F)))
    (item : string * (xval F)) : list (string * list (xval F)) :=
  dict_set item.1 (xtb_get item.1 xtb_props ++ [item.2]) xtb_props.

(** One call of the baseline tool per molecule, in order; the first
    failure ends the loop with its exception. *)
Definition _get_xtb_props (self : calculator) (mols : list molecule)
  : result (list (string * list (xval F))) :=
  fold_res
    (λ xtb_props mol,
       do xtb_out <- run_xtb_calc mol (xtbopt self);
       Ok (foldl xtb_append xtb_props xtb_out))
    mols [].

(** ** The batch runner *)

(** The sampler of [DataLoader(..., shuffle=False)]: items are
    appended to the current batch, which is yielded when it reaches
    [batch_size]; a shorter last batch is yielded too. *)
Fixpoint batch_sampler {A : Type} (batch_size : nat) (batch : list A)
    (data : list A) : list (list A) :=
  match data with
  | [] => match batch with [] => [] | _ => [batch] end
  | x :: rest =>
      let batch := batch ++ [x] in
      if Nat.eqb (length batch) batch_size
      then batch :: batch_sampler batch_size [] rest
      else batch_sampler batch_size batch rest
  end.

Definition DataLoader (data : list molecule) (batch_size : nat)
  : result (list (list molecule)) :=
  if Nat.eqb batch_size 0
  then Raise (ValueError "batch_size should be a positive integer value")
  else Ok (batch_sampler batch_size [] data).

(** [batch.ptr]: the cumulative atom counts of a batch, starting at
    zero; one entry more than the batch has molecules. *)
Fixpoint ptr_from (acc : nat) (batch : list molecule) : list nat :=
  match batch with
  | [] => [acc]
  | m :: rest => acc :: ptr_from (acc + length (atoms m)) rest
  end.

Definition batch_ptr (batch : list molecule) : list nat := ptr_from 0 batch.

(** [_get_preds]: the outputs and the pointers of every batch. *)
Definition _get_preds (self : calculator) (loader : list (list molecule))
    (model_name : string) : list (ndarray F) * list (list nat) :=
  (map (net model_name) loader, map batch_ptr loader).

(** ** The aggregator *)

(** [preds * norm_dict["scale"] + norm_dict["location"]] *)
Definition _inv_scale (self : calculator) (preds : ndarray F)
    (norm_dict : norm_dict F) : result (ndarray F) :=
  do scaled <- np_binop fmul preds (scale norm_dict);
  np_binop fadd scaled (location norm_dict).

(** A value of [preds] and [preds_filtered]: an array, or the list of
    per-molecule arrays of the charges model. *)
Inductive pval : Type :=
| VArr (a : ndarray F)
| VList (l : list (ndarray F)).

(** The per-molecule pieces of one batch of atom-level output. *)
Definition split_by_ptr (y : ndarray F) (batch_ptr : list nat)
  : result (list (ndarray F)) :=
  map_res
    (λ idx, np_slice y (nth idx batch_ptr 0) (nth (idx + 1) batch_ptr 0))
    (seq 0 (length batch_ptr - 1)).

(** What the model loop stores in [preds[model_name]]. *)
Definition aggregate (self : calculator) (model_name : string)
    (y_hat : list (ndarray F)) (g_ptr : list (list nat)) : result pval :=
  if str_contains "charges" model_name then
    do atom_y_hats <-
      fold_res
        (λ atom_y_hats (b : ndarray F * list nat),
           do parts <- split_by_ptr b.1 b.2;
           Ok (atom_y_hats ++ parts))
        (zip y_hat g_ptr) [];
    Ok (VList atom_y_hats)
  else
    do y_hat <- np_vstack y_hat;
    do y_hat <-
      (if str_contains "multitask" model_name then
         if str_contains "direct" model_name
         then _inv_scale self y_hat (norm_direct (norm self))
         else _inv_scale self y_hat (norm_delta (norm self))
       else Ok y_hat);
    Ok (VArr y_hat).

(** The body of [for _, model_name in enumerate(self.models)]. *)
Definition model_step (self : calculator) (loader : list (list molecule))
    (preds : list (string * pval)) (model_name : string)
  : result (list (string * pval)) :=
  let (y_hat, g_ptr) := _get_preds self loader model_name in
  do p <- aggregate self model_name y_hat g_ptr;
  Ok (dict_set model_name p preds).

Definition pval_squeeze (p : pval) : result pval :=
  match p with
  | VArr a => Ok (VArr (np_squeeze a))
  | VList _ =>
      Raise (AttributeError "'list' object has no attribute 'squeeze'")
  end.

Definition pval_column (p : pval) (k : nat) : result pval :=
  match p with
  | VArr a => do col <- np_column a k; Ok (VArr col)
  | VList _ =>
      Raise (TypeError "list indices must be integers or slices, not tuple")
  end.

(** The body of [for model_name in preds.keys()]. *)
Definition route_step (self : calculator)
    (preds_filtered : list (string * pval)) (entry : string * pval)
  : result (list (string * pval)) :=
  let mname := rsplit1_first entry.1 in
  if bool_decide (mname = "single_energy") then
    do e <- pval_squeeze entry.2;
    Ok (dict_set "E_form" e preds_filtered)
  else if bool_decide (mname = "multitask") then
    fold_res
      (λ preds_filtered task,
         match MULTITASK_ENDPOINTS !! task with
         | None => Raise (KeyError task)
         | Some k =>
             do col <- pval_column entry.2 k;
             Ok (dict_set task col preds_filtered)
         end)
      (multitasks self) preds_filtered
  else if bool_decide (mname = "charges") then
    Ok (dict_set "charges" entry.2 preds_filtered)
  else Ok preds_filtered.

(** ** The delta corrector *)

(** The new value of [preds_filtered[prop]]. *)
Definition delta_value (xtb_props : list (string * list (xval F)))
    (prop : string) (delta_arr : pval) : result pval :=
  if bool_decide (prop = "charges") then
    do d_arrs <-
      match delta_arr with
      | VList l => Ok l
      | VArr a => np_iter a
      end;
    do sums <-
      map_res
        (λ p : ndarray F * (xval F), np_binop fadd p.1 (np_array_val p.2))
        (zip d_arrs (xtb_get prop xtb_props));
    Ok (VList sums)
  else
    match delta_arr with
    | VArr a =>
        do xtb_arr <- np_array_f32 f32 (xtb_get prop xtb_props);
        do s <- np_binop fadd a xtb_arr;
        Ok (VArr s)
    | VList _ =>
        (* not reached: a list is stored under "charges" only *)
        Raise (TypeError "unsupported operand")
    end.

Definition delta_correct (xtb_props : list (string * list (xval F)))
    (preds_filtered : list (string * pval)) : result (list (string * pval)) :=
  map_res
    (λ entry : string * pval,
       do v <- delta_value xtb_props entry.1 entry.2;
       Ok (entry.1, v))
    preds_filtered.

(** ** The result assembler *)

(** An entry of a final output sequence. *)
Inductive pyval : Type :=
| PyFloat (x : F)
| PyRow (xs : list F)
| PyArr (a : ndarray F).

(** The variable [val] of the assembler: a list, or what is left of a
    value that is not one. *)
Inductive popval : Type :=
| PopList (l : list pyval)
| PopFloat (x : F)
| PopArr (a : ndarray F).

(** [a.tolist()] *)
Definition np_tolist (a : ndarray F) : popval :=
  match a with
  | A0 x => PopFloat x
  | A1 xs => PopList (map PyFloat xs)
  | A2 rows => PopList (map PyRow rows)
  end.

(** [val.tolist() if key != "charges" else val] *)
Definition assembler_val (key : string) (val : pval) : result popval :=
  if negb (bool_decide (key = "charges")) then
    match val with
    | VArr a => Ok (np_tolist a)
    | VList _ =>
        Raise (AttributeError "'list' object has no attribute 'tolist'")
    end
  else
    match val with
    | VList l => Ok (PopList (map PyArr l))
    | VArr a => Ok (PopArr a)
    end.

(** [l.pop()]: the last element, and the list without it. *)
Definition list_pop {A : Type} (l : list A) : option (A * list A) :=
  match reverse l with
  | [] => None
  | x :: r => Some (x, reverse r)
  end.

(** [val.pop()] *)
Definition py_pop (val : popval) : result (pyval * popval) :=
  match val with
  | PopList l =>
      match list_pop l with
      | Some (x, l') => Ok (x, PopList l')
      | None => Raise (IndexError "pop from empty list")
      end
  | PopFloat _ =>
      Raise (AttributeError "'float' object has no attribute 'pop'")
  | PopArr _ =>
      Raise (AttributeError "'numpy.ndarray' object has no attribute 'pop'")
  end.

(** [np.array(PLACEHOLDER)] for charges, [PLACEHOLDER] otherwise. *)
Definition placeholder (key : string) : pyval :=
  if bool_decide (key = "charges") then PyArr (A0 NaN) else PyFloat NaN.

(** [for idx in range(len(input_))], over the positions left. *)
Fixpoint assemble_loop (idxs : list nat) (fatal : list nat) (key : string)
    (val : popval) (temp : list pyval) : result (list pyval) :=
  match idxs with
  | [] => Ok temp
  | idx :: rest =>
      if bool_decide (idx ∈ fatal)
      then assemble_loop rest fatal key val (temp ++ [placeholder key])
      else
        do '(x, val') <- py_pop val;
        assemble_loop rest fatal key val' (temp ++ [x])
  end.

(** The body of [for key, val in preds_filtered.items()]. *)
Definition assemble_key (n_input : nat) (fatal : list nat) (key : string)
    (val : pval) : result (list pyval) :=
  do val <- assembler_val key val;
  assemble_loop (seq 0 n_input) fatal key val [].

Definition assemble (n_input : nat) (fatal : list nat)
    (preds_filtered : list (string * pval))
  : result (list (string * list pyval)) :=
  fold_res
    (λ preds_final (entry : string * pval),
       do temp <- assemble_key n_input fatal entry.1 entry.2;
       Ok (dict_set entry.1 temp preds_final))
    preds_filtered [].

(** ** [predict] on a list *)

(** Everything after [_preprocess]. *)
Definition predict_valid (self : calculator) (n_input : nat)
    (mols : list molecule) (fatal : list nat) (batch_size : nat)
  : result (list (string * list pyval)) :=
  do xtb_props <-
    (if delta self then _get_xtb_props self mols else Ok []);
  do loader <- DataLoader mols batch_size;
  do preds <- fold_res (model_step self loader) (models self) [];
  do preds_filtered <- fold_res (route_step self) preds [];
  do preds_filtered <-
    (if delta self then delta_correct xtb_props preds_filtered
     else Ok preds_filtered);
  assemble n_input fatal preds_filtered.

(** The branch [isinstance(input_, list)]: the result, and the store
    as the call leaves it. *)
Definition predict_list (self : calculator) (input_ : list pyobj)
    (batch_size : nat) (h : gmap loc molecule)
  : result (list (string * list pyval)) * gmap loc molecule :=
  match _preprocess self input_ h with
  | Raise e => (Raise e, h)
  | Ok st =>
      let mols := map (mol_of (store st)) (good_mols input_ st) in
      (predict_valid self (length input_) mols (fatal st) batch_size,
       store st)
  end.

(** ** Streaming: [_predict_batch] *)

(** A generator is the list of the objects it has yet to yield.
    [pull n generator mols] is the loop [for _ in range(n)] around
    [next(generator)]: it returns the chunk, the generator as it is
    left, and [done_flag], set when [StopIteration] was raised. *)
Fixpoint pull (n : nat) (generator : list pyobj) (mols : list pyobj)
  : list pyobj * list pyobj * bool :=
  match n with
  | 0 => (mols, generator, false)
  | S n' =>
      match generator with
      | [] => (mols, [], true)
      | mol :: rest => pull n' rest (mols ++ [mol])
      end
  end.

(** What a call leaves behind: its result or exception, the generator
    and the store. *)
Record outcome : Type := Outcome {
  out_result : result (list (string * list pyval));
  out_generator : list pyobj;
  out_store : gmap loc molecule
}.

(** The loop [while not done_flag]; [None] when [fuel] iterations do
    not finish it. On success the result is [preds_batch]. *)
Fixpoint batch_loop (fuel : nat) (self : calculator)
    (generator : list pyobj) (batch_size : nat) (h : gmap loc molecule)
    (preds_batch : list (list (string * list pyval)))
  : option (result (list (list (string * list pyval)))
            * list pyobj * gmap loc molecule) :=
  match fuel with
  | 0 => None
  | S fuel' =>
      let '(mols, generator, done_flag) := pull batch_size generator [] in
      match predict_list self mols batch_size h with
      | (Raise e, h) => Some (Raise e, generator, h)
      | (Ok preds, h) =>
          let preds_batch := preds_batch ++ [preds] in
          if done_flag then Some (Ok preds_batch, generator, h)
          else batch_loop fuel' self generator batch_size h preds_batch
      end
  end.

(** [batch[pred_k]] is a list, as [predict] returns it: it extends the
    accumulator for charges, and has no [tolist] for the other keys. *)
Definition extend_step (pred_k : string) (acc : list pyval)
    (batch : list (string * list pyval)) : result (list pyval) :=
  match dict_get pred_k batch with
  | None => Raise (KeyError pred_k)
  | Some v =>
      if bool_decide (pred_k = "charges") then Ok (acc ++ v)
      else Raise (AttributeError "'list' object has no attribute 'tolist'")
  end.

(** The body of [for pred_k in pred_keys]. For a key other than
    charges the inner loop raises on the first batch, and there is
    always one, so the conversion [np.array(preds[pred_k])] that
    follows it in the source is never reached. *)
Definition collect_key (preds_batch : list (list (string * list pyval)))
    (preds : list (string * list pyval)) (pred_k : string)
  : result (list (string * list pyval)) :=
  do vals <- fold_res (extend_step pred_k) preds_batch [];
  Ok (dict_set pred_k vals preds).

Definition collect (preds_batch : list (list (string * list pyval)))
  : result (list (string * list pyval)) :=
  match preds_batch with
  | [] => Raise (IndexError "list index out of range")
  | first :: _ => fold_res (collect_key preds_batch) (map fst first) []
  end.

Definition _predict_batch (self : calculator) (generator : list pyobj)
    (batch_size : nat) (h : gmap loc molecule) : option outcome :=
  match batch_loop (S (length generator)) self generator batch_size h [] with
  | None => None
  | Some (Raise e, generator, h) => Some (Outcome (Raise e) generator h)
  | Some (Ok preds_batch, generator, h) =>
      Some (Outcome (collect preds_batch) generator h)
  end.

(** ** [predict] *)

Inductive input : Type :=
| InMolecule (l : loc)
| InList (mols : list pyobj)
| InGenerator (generator : list pyobj)
| InOther (type_repr : string).

Definition default_batch_size : nat := 32.

Definition predict (self : calculator) (input_ : input) (batch_size : nat)
    (h : gmap loc molecule) : option outcome :=
  match input_ with
  | InMolecule l =>
      let (r, h) := predict_list self [PyMolecule l] default_batch_size h in
      Some (Outcome r [] h)
  | InList mols =>
      let (r, h) := predict_list self mols batch_size h in
      Some (Outcome r [] h)
  | InGenerator generator => _predict_batch self generator batch_size h
  | InOther type_repr =>
      Some (Outcome
              (Raise (ValueError
                        ("Invalid input. Expected OEChem molecule, list or generator, but got "
                         +:+ type_repr +:+ ".")))
              [] h)
  end.


(** ** Vocabulary of the statements *)

(** A task name that the constructor's chain accepts. *)
Definition recognised (task : string) : Prop :=
  is_Some (MULTITASK_ENDPOINTS !! task) ∨ task = "charges" ∨ task = "E_form".

(** The checks a trace records for position [idx], in call order. *)
Definition events_of (idx : nat) (trace : list (nat * check)) : list check :=
  map snd (List.filter (λ ev : nat * check, Nat.eqb ev.1 idx) trace).

(** The state of [_preprocess] when its loop reaches position [idx]. *)
Definition reached_state (self : calculator) (mols : list pyobj)
    (h : gmap loc molecule) (idx : nat) : vstate :=
  preprocess_loop self 0 (take idx mols) (init_vstate h).

(** Placeholders at the fatal positions of [idxs] and the entries of
    [src], taken from its front, at the others. *)
Fixpoint fill (idxs : list nat) (fatal : list nat) (key : string)
    (src : list pyval) : list pyval :=
  match idxs with
  | [] => []
  | idx :: rest =>
      if bool_decide (idx ∈ fatal)
      then placeholder key :: fill rest fatal key src
      else
        match src with
        | [] => []
        | x :: src' => x :: fill rest fatal key src'
        end
  end.

(** How many positions of [idxs] are not fatal. *)
Definition count_valid (idxs : list nat) (fatal : list nat) : nat :=
  length (List.filter (λ idx, negb (bool_decide (idx ∈ fatal))) idxs).

(** Position [j] has the same events and the same memberships in
    [st] as in [st0]. *)
Definition untouched (j : nat) (st0 st : vstate) : Prop :=
  events_of j (trace st) = events_of j (trace st0) ∧
  (j ∈ idx_non_valid_mols st ↔ j ∈ idx_non_valid_mols st0) ∧
  (j ∈ idx_non_valid_atypes st ↔ j ∈ idx_non_valid_atypes st0) ∧
  (j ∈ idx_charged st ↔ j ∈ idx_charged st0) ∧
  (j ∈ idx_no3d st ↔ j ∈ idx_no3d st0) ∧
  (j ∈ idx_noh st ↔ j ∈ idx_noh st0) ∧
  (j ∈ fatal st ↔ j ∈ fatal st0).

(** The store [h] differs from [h0], on the locations of [h0], only by
    embeddings of molecules of [mols] that had no 3d coordinates, made
    under [force3d]. *)
Definition embedded_only (self : calculator) (mols : list pyobj)
    (h0 h : gmap loc molecule) : Prop :=
  ∀ l m0,
    h0 !! l = Some m0 →
    ∃ k,
      h !! l = Some (Nat.iter k ob_make3D m0) ∧
      (k ≠ 0 → force3d self = true ∧ PyMolecule l ∈ mols ∧ dim m0 ≠ 3%Z).

(** A list cut into consecutive pieces of the given sizes. *)
Fixpoint cut_by {A : Type} (sizes : list nat) (ys : list A) : list (list A) :=
  match sizes with
  | [] => []
  | n :: rest => take n ys :: cut_by rest (drop n ys)
  end.

(** The atom counts of the molecules of a batch. *)
Definition atom_counts (batch : list molecule) : list nat :=
  map (λ m, length (atoms m)) batch.

(** The task under which the output of the model [model_name] is
    stored in [preds_filtered]. *)
Definition routes_to (self : calculator) (model_name key : string) : Prop :=
  (rsplit1_first model_name = "single_energy" ∧ key = "E_form") ∨
  (rsplit1_first model_name = "multitask" ∧ key ∈ multitasks self) ∨
  (rsplit1_first model_name = "charges" ∧ key = "charges").

(** The same externals with another baseline tool. *)
Definition with_xtb
    (xtb : molecule → bool → result (list (string * xval F)))
  : Externals F :=
  {| fadd := fadd; fmul := fmul; f32 := f32; NaN := NaN;
     MULTITASK_ENDPOINTS := MULTITASK_ENDPOINTS;
     QMUGS_ATOM_DICT := QMUGS_ATOM_DICT;
     ob_make3D := ob_make3D; ob_removeh := ob_removeh; ob_addh := ob_addh;
     run_xtb_calc := xtb; net := net |}.

End Calculator.

Arguments calculator : clear implicits.
Arguments pval : clear implicits.
Arguments pyval : clear implicits.
Arguments popval : clear implicits.
Arguments outcome : clear implicits.

(** ** A concrete world

    Integers stand for the floating-point numbers, and small functions
    for the imported tools, so that the calculator can be run. *)

Module Scenario.

Definition endpoints : gmap string nat :=
  list_to_map [("E_homo", 0); ("E_lumo", 1); ("E_gap", 2); ("dipole", 3)].

Definition qmugs_atoms : gmap Z nat :=
  list_to_map
    [(1%Z, 0); (6%Z, 1); (7%Z, 2); (8%Z, 3); (9%Z, 4); (15%Z, 5);
     (16%Z, 6); (17%Z, 7); (35%Z, 8); (53%Z, 9)].

(** Free valences of an element, filled with hydrogens by [addh]. *)
Definition valence (atomicnum : Z) : nat :=
  if Z.eqb atomicnum 6 then 4
  else if Z.eqb atomicnum 7 then 3
  else if Z.eqb atomicnum 8 then 2
  else 0.

Definition removeh (m : molecule) : molecule :=
  Molecule (List.filter (λ a, negb (Z.eqb a 1)) (atoms m)) (charge m) (dim m).

Definition addh (m : molecule) : molecule :=
  Molecule
    (atoms m ++ concat (map (λ a, replicate (valence a) 1%Z) (atoms m)))
    (charge m) (dim m).

Definition make3D (m : molecule) : molecule :=
  Molecule (atoms (addh (removeh m))) (charge m) 3.

(** The baseline tool: it fails on molecules that contain bromine. *)
Definition xtb (m : molecule) (opt : bool) : result (list (string * xval Z)) :=
  if bool_decide (35%Z ∈ atoms m) then Raise (ExternalError "xtb failed")
  else
    let n := Z.of_nat (length (atoms m)) in
    Ok [("E_form", XScalar (100 * n)%Z);
        ("E_homo", XScalar (200 * n)%Z);
        ("E_lumo", XScalar (300 * n)%Z);
        ("E_gap", XScalar (400 * n)%Z);
        ("dipole", XScalar (500 * n)%Z);
        ("charges", XVec (map (Z.mul 10) (atoms m)))].

(** The networks: the charges model returns the atomic number of every
    atom, the multitask model four columns per molecule, and the energy
    model the number of atoms. *)
Definition network (model_name : string) (batch : list molecule) : ndarray Z :=
  if str_contains "charges" model_name then A1 (concat (map atoms batch))
  else if str_contains "multitask" model_name then
    A2 (map (λ m, let n := Z.of_nat (length (atoms m)) in
                  [n; 2 * n; 3 * n; 4 * n]%Z) batch)
  else A2 (map (λ m, [Z.of_nat (length (atoms m))]) batch).

Global Instance world : Externals Z := {
  fadd := Z.add;
  fmul := Z.mul;
  f32 := id;
  NaN := (-1)%Z;
  MULTITASK_ENDPOINTS := endpoints;
  QMUGS_ATOM_DICT := qmugs_atoms;
  ob_make3D := make3D;
  ob_removeh := removeh;
  ob_addh := addh;
  run_xtb_calc := xtb;
  net := network
}.

Definition norm_pt : norm_table Z :=
  NormTable (NormDict (A0 2%Z) (A0 1%Z)) (NormDict (A0 3%Z) (A0 5%Z)).

Definition water : molecule := Molecule [8; 1; 1]%Z 0 3.
Definition methane : molecule := Molecule [6; 1; 1; 1; 1]%Z 0 3.
Definition ammonium : molecule := Molecule [7; 1; 1; 1; 1]%Z 1 3.
Definition bromomethane : molecule := Molecule [6; 35; 1; 1; 1]%Z 0 3.
(** Water drawn flat and without its hydrogens. *)
Definition bare_oxygen : molecule := Molecule [8]%Z 0 2.

(** Silicon is not an element of the table. *)
Definition silane : molecule := Molecule [14; 1; 1; 1; 1]%Z 0 3.

Definition lab : gmap loc molecule :=
  list_to_map
    [(1%positive, water); (2%positive, methane); (3%positive, ammonium);
     (4%positive, bromomethane); (5%positive, bare_oxygen);
     (6%positive, silane)].

(** A calculator for [task_list], with [force3d] and [addh] set. *)
Definition calc (task_list : list string) (delta : bool)
  : result (calculator Z) :=
  __init__ (TasksList task_list) delta true true false false false norm_pt.

(** Construct the calculator and call [predict]. *)
Definition run (task_list : list string) (delta : bool) (input_ : input)
    (batch_size : nat) : option (result (list (string * list (pyval Z)))) :=
  match calc task_list delta with
  | Ok self => out_result <$> predict self input_ batch_size lab
  | Raise e => Some (Raise e)
  end.

(** The calculators that [calc] constructs for one task. *)
Definition energy_direct : calculator Z :=
  Calculator (TasksList ["E_form"]) false [] true true false false false
    norm_pt ["single_energy_direct"].

Definition energy_delta : calculator Z :=
  Calculator (TasksList ["E_form"]) true [] true true false false false
    norm_pt ["single_energy_delta"].

Definition charges_direct : calculator Z :=
  Calculator (TasksList ["charges"]) false [] true true false false false
    norm_pt ["charges_direct"].

(** An input with a molecule for every outcome of the validator: flat
    bare oxygen, water, an object that is no molecule, ammonium and
    silane. *)
Definition mixed_input : list pyobj :=
  [PyMolecule 5; PyMolecule 1; PyOther; PyMolecule 3; PyMolecule 6]%positive.

Definition mixed_validated : vstate :=
  preprocess_loop charges_direct 0 mixed_input (init_vstate lab).

(** An input on whose second molecule the baseline tool fails. *)
Definition bromo_input : list pyobj :=
  [PyMolecule 1; PyMolecule 4; PyMolecule 2]%positive.

Definition bromo_validated : vstate :=
  preprocess_loop energy_delta 0 bromo_input (init_vstate lab).

(** A calculator without [force3d] and without [addh]. *)
Definition charges_flat : calculator Z :=
  Calculator (TasksList ["charges"]) false [] false false false false false
    norm_pt ["charges_direct"].

Definition flat_validated : vstate :=
  preprocess_loop charges_flat 0 mixed_input (init_vstate lab).

(** Water, ammonium (charged) and methane. *)
Definition charged_input : list pyobj :=
  [PyMolecule 1; PyMolecule 3; PyMolecule 2]%positive.

Definition charged_validated : vstate :=
  preprocess_loop energy_direct 0 charged_input (init_vstate lab).

Definition cation_validated : vstate :=
  preprocess_loop energy_direct 0 [PyMolecule 3%positive] (init_vstate lab).

(** The calculator that [calc] constructs for three tasks in delta
    mode, and what it returns on [charged_input]. *)
Definition three_tasks : calculator Z :=
  Calculator (TasksList ["E_form"; "dipole"; "charges"]) true ["dipole"] true
    true false false false norm_pt
    ["single_energy_delta"; "charges_delta"; "multitask_delta"].

Definition three_result : list (string * list (pyval Z)) :=
  [("E_form", [PyFloat 505; PyFloat (-1); PyFloat 303]%Z);
   ("charges",
    [PyArr (A1 [66; 11; 11; 11; 11]%Z); PyArr (A0 (-1)%Z);
     PyArr (A1 [88; 11; 11]%Z)]);
   ("dipole", [PyFloat 2565; PyFloat (-1); PyFloat 1541]%Z)].

(** What the baseline tool reports for a molecule without bromine. *)
Definition xtb_outputs (m : molecule) : list (string * xval Z) :=
  let n := Z.of_nat (length (atoms m)) in
  [("E_form", XScalar (100 * n)%Z);
   ("E_homo", XScalar (200 * n)%Z);
   ("E_lumo", XScalar (300 * n)%Z);
   ("E_gap", XScalar (400 * n)%Z);
   ("dipole", XScalar (500 * n)%Z);
   ("charges", XVec (map (Z.mul 10) (atoms m)))].

(** A baseline tool that is not installed. *)
Definition broken_xtb (m : molecule) (opt : bool)
  : result (list (string * xval Z)) :=
  Raise (ExternalError "xtb not found").

(** A stream of three molecules, and what streaming with batches of
    two returns for the charges task. *)
Definition stream_three : list pyobj :=
  [PyMolecule 1; PyMolecule 2; PyMolecule 1]%positive.

Definition stream_result : list (string * list (pyval Z)) :=
  [("charges",
    [PyArr (A1 [6; 1; 1; 1; 1]%Z); PyArr (A1 [8; 1; 1]%Z);
     PyArr (A1 [8; 1; 1]%Z)])].

Definition stream_outcome : outcome Z :=
  default (Outcome (Raise (ValueError "")) [] ∅)
    (predict charges_direct (InGenerator stream_three) 2 lab).

End Scenario.

(** * Properties *)

Section Properties.

Context {F : Type} {E : Externals F}.

(** ** Fallible loops *)

Lemma fold_res_app {A B : Type} (f : B → A → result B) (xs ys : list A)
    (acc : B) :
  fold_res f (xs ++ ys) acc = (do acc' <- fold_res f xs acc; fold_res f ys acc').
Proof.
  revert acc. induction xs as [|x xs IH]; intros acc; simpl; [done|].
  destruct (f acc x); simpl; auto.
Qed.


Lemma map_res_total {A B : Type} (f : A → result B) (g : A → B)
    (xs : list A) :
  Forall (λ x, f x = Ok (g x)) xs → map_res f xs = Ok (map g xs).
Proof.
  induction 1 as [|x xs Hx _ IH]; simpl; [done|].
  by rewrite Hx, IH.
Qed.

(** ** The constructor *)

Lemma task_group_recognised (task : string) :
  recognised task → ∃ name, task_group task = Ok name.
Proof.
  unfold recognised, task_group, in_endpoints.
  intros Hrec. repeat case_bool_decide; eauto.
  exfalso. destruct Hrec as [?|[?|?]]; done.
Qed.

Lemma task_group_unrecognised (task : string) :
  ¬ recognised task →
  task_group task
  = Raise (ValueError ("Task name `" +:+ task +:+ "` not recognised")).
Proof.
  unfold recognised, task_group, in_endpoints.
  intros Hrec. repeat case_bool_decide; try done; exfalso; apply Hrec; auto.
Qed.

Lemma resolve_loop_ok (d : bool) (ts : list string) (acc : list string) :
  Forall recognised ts →
  ∃ names,
    fold_res (resolve_step d) ts acc = Ok (acc ++ names) ∧
    ∀ m, m ∈ names ↔
         ∃ t name, t ∈ ts ∧ task_group t = Ok name ∧ m = name +:+ mode_suffix d.
Proof.
  intros Hts. revert acc.
  induction Hts as [|t ts Ht _ IH]; intros acc; simpl.
  - exists []. rewrite app_nil_r. split; [done|].
    intros m. split; [by intros ?%elem_of_nil|].
    by intros (? & ? & ?%elem_of_nil & _).
  - destruct (task_group_recognised t Ht) as [name Hname].
    unfold resolve_step at 1. rewrite Hname. simpl.
    destruct (IH (acc ++ [name +:+ mode_suffix d])) as (names & -> & Hnames).
    exists ((name +:+ mode_suffix d) :: names). split.
    + by rewrite <- app_assoc.
    + intros m. rewrite elem_of_cons, Hnames. split.
      * intros [->|(t' & n' & Hin & Hg & ->)].
        -- exists t, name. by rewrite elem_of_cons; auto.
        -- exists t', n'. by rewrite elem_of_cons; auto.
      * intros (t' & n' & [->|Hin]%elem_of_cons & Hg & ->).
        -- left. congruence.
        -- right. eauto.
Qed.

Lemma resolve_loop_raise (d : bool) (pre post : list string) (t : string)
    (acc : list string) :
  Forall recognised pre →
  ¬ recognised t →
  fold_res (resolve_step d) (pre ++ t :: post) acc
  = Raise (ValueError ("Task name `" +:+ t +:+ "` not recognised")).
Proof.
  intros Hpre Ht. rewrite fold_res_app.
  destruct (resolve_loop_ok d pre acc Hpre) as (names & -> & _). simpl.
  unfold resolve_step. by rewrite (task_group_unrecognised t Ht).
Qed.

(** C8. The constructor maps every task of the multitask group to
    [multitask], [charges] to [charges] and [E_form] to
    [single_energy], appends [_delta] or [_direct] by the mode and
    keeps each identifier once; with any other task name it raises the
    unrecognised-task error for the first such name, so no calculator
    exists on which a model could be resolved or a molecule processed. *)
Theorem resolver_maps_or_raises (targ : tasks_arg)
    (d f3 ah xo vb pg : bool) (nt : norm_table F) :
  MULTITASK_ENDPOINTS !! "charges" = None →
  MULTITASK_ENDPOINTS !! "E_form" = None →
  let ts := iter_tasks (expand_tasks targ) in
  (Forall recognised ts →
   ∃ self,
     __init__ targ d f3 ah xo vb pg nt = Ok self ∧
     delta self = d ∧
     NoDup (models self) ∧
     ∀ m, m ∈ models self ↔
          (∃ t, t ∈ ts ∧ is_Some (MULTITASK_ENDPOINTS !! t) ∧
                m = "multitask" +:+ mode_suffix d) ∨
          ("charges" ∈ ts ∧ m = "charges" +:+ mode_suffix d) ∨
          ("E_form" ∈ ts ∧ m = "single_energy" +:+ mode_suffix d)) ∧
  (∀ pre t post,
     ts = pre ++ t :: post →
     Forall recognised pre →
     ¬ recognised t →
     __init__ targ d f3 ah xo vb pg nt
     = Raise (ValueError ("Task name `" +:+ t +:+ "` not recognised"))).
Proof.
  intros Hch Hef ts. split.
  - intros Hts. unfold __init__. fold ts.
    destruct (resolve_loop_ok d ts [] Hts) as (names & -> & Hnames).
    cbn [rbind app].
    eexists. split; [reflexivity|]. cbn [models delta]. split; [done|].
    unfold list_of_set. split.
    { apply NoDup_elements. }
    intros m.
    rewrite elem_of_elements, elem_of_list_to_set, Hnames. split.
    + intros (t & name & Hin & Hg & ->).
      unfold task_group, in_endpoints in Hg.
      repeat case_bool_decide; simplify_eq; eauto 10.
    + intros [(t & Hin & Hmt & ->)|[[Hin ->]|[Hin ->]]].
      * exists t, "multitask". split; [done|]. split; [|done].
        unfold task_group, in_endpoints. by rewrite bool_decide_eq_true_2.
      * exists "charges", "charges". split; [done|]. split; [|done].
        unfold task_group, in_endpoints.
        rewrite bool_decide_eq_false_2; [done|]. rewrite Hch. by intros [? ?].
      * exists "E_form", "single_energy". split; [done|]. split; [|done].
        unfold task_group, in_endpoints.
        rewrite bool_decide_eq_false_2; [done|]. rewrite Hef. by intros [? ?].
  - intros pre t post Heq Hpre Ht. unfold __init__. fold ts. rewrite Heq.
    by rewrite (resolve_loop_raise d pre post t [] Hpre Ht).
Qed.

(** ** Empty input *)

(** C9. [predict] on an empty list raises [ValueError("No molecules
    provided.")] out of [_preprocess]: the call has no result, and the
    store is as it was. *)
Theorem predict_empty_list_raises (self : calculator F) (batch_size : nat)
    (h : gmap loc molecule) :
  _preprocess self [] h = Raise (ValueError "No molecules provided.") ∧
  predict self (InList []) batch_size h
  = Some (Outcome (Raise (ValueError "No molecules provided.")) [] h).
Proof. split; reflexivity. Qed.

(** ** Inverse normalisation *)

Lemma inv_scale_scalar_table (self : calculator F) (rows : list (list F))
    (s l : F) :
  _inv_scale self (A2 rows) (NormDict (A0 s) (A0 l))
  = Ok (A2 (map (map (λ raw, fadd (fmul raw s) l)) rows)).
Proof.
  unfold _inv_scale. simpl. do 2 f_equal.
  rewrite map_map. apply map_ext. intros row. by rewrite map_map.
Qed.

Lemma bc_row_same_length (f : F → F → F) (xs ys : list F) :
  length xs = length ys → bc_row f xs ys = Ok (zip_with f xs ys).
Proof. intros Hlen. unfold bc_row. by rewrite Hlen, Nat.eqb_refl. Qed.

(** X20. With a table of one scale and one location per column, the
    inverse scaling maps the entry of row [i] and column [j] to
    [raw * scale_j + location_j]. *)
Lemma inv_scale_column_table (self : calculator F) (rows : list (list F))
    (ss ls : list F) :
  Forall (λ row, length row = length ss) rows →
  length ls = length ss →
  _inv_scale self (A2 rows) (NormDict (A1 ss) (A1 ls))
  = Ok (A2 (map (λ row, zip_with fadd (zip_with fmul row ss) ls) rows)).
Proof.
  intros Hrows Hls. unfold _inv_scale. simpl.
  rewrite (map_res_total _ (λ row, zip_with fmul row ss)).
  2:{ eapply Forall_impl; [exact Hrows|]. intros row Hrow. simpl.
      by apply bc_row_same_length. }
  simpl.
  rewrite (map_res_total _ (λ row, zip_with fadd row ls)).
  2:{ apply Forall_forall. intros row [row' [-> Hin]]%list_elem_of_fmap.
      apply bc_row_same_length. rewrite length_zip_with.
      rewrite Forall_forall in Hrows. rewrite (Hrows row' Hin). lia. }
  simpl. by rewrite map_map.
Qed.

(** C5. The aggregator applies [_inv_scale], that is
    [raw * scale + location], to the stacked output of the multitask
    model in both modes, with the table of the mode ([delta] or
    [direct]), and stores the stacked output of the single-energy model
    as it is in both modes. *)
Theorem inverse_scaling_multitask_only (self : calculator F) (d : bool)
    (y_hat : list (ndarray F)) (g_ptr : list (list nat)) :
  aggregate self ("multitask" +:+ mode_suffix d) y_hat g_ptr
  = (do raw <- np_vstack y_hat;
     do unscaled <-
       _inv_scale self raw
         (if d then norm_delta (norm self) else norm_direct (norm self));
     Ok (VArr unscaled)) ∧
  aggregate self ("single_energy" +:+ mode_suffix d) y_hat g_ptr
  = (do raw <- np_vstack y_hat; Ok (VArr raw)) ∧
  (∀ raw table,
     _inv_scale self raw table
     = (do scaled <- np_binop fmul raw (scale table);
        np_binop fadd scaled (location table))) ∧
  (∀ rows s l,
     _inv_scale self (A2 rows) (NormDict (A0 s) (A0 l))
     = Ok (A2 (map (map (λ raw, fadd (fmul raw s) l)) rows))).
Proof.
  split; [|split; [|split]].
  - unfold aggregate. destruct d; reflexivity.
  - unfold aggregate. destruct d; cbn; destruct (np_vstack y_hat); reflexivity.
  - reflexivity.
  - intros. apply inv_scale_scalar_table.
Qed.

(** ** The validator: order of the checks *)

Lemma preprocess_loop_app (self : calculator F) (k : nat)
    (xs ys : list pyobj) (st : vstate) :
  preprocess_loop self k (xs ++ ys) st
  = preprocess_loop self (k + length xs) ys (preprocess_loop self k xs st).
Proof.
  revert k st. induction xs as [|x xs IH]; intros k st; simpl.
  - by rewrite Nat.add_0_r.
  - rewrite IH. f_equal. lia.
Qed.

Lemma events_of_app (idx : nat) (t1 t2 : list (nat * check)) :
  events_of idx (t1 ++ t2) = events_of idx t1 ++ events_of idx t2.
Proof. unfold events_of. by rewrite List.filter_app, map_app. Qed.

Lemma events_of_other (j idx : nat) (c : check) :
  j ≠ idx → events_of j [(idx, c)] = [].
Proof.
  intros Hne. unfold events_of. simpl.
  destruct (Nat.eqb_spec idx j); [congruence|done].
Qed.

Lemma events_of_same (idx : nat) (c : check) : events_of idx [(idx, c)] = [c].
Proof. unfold events_of. simpl. by rewrite Nat.eqb_refl. Qed.

Lemma untouched_refl (j : nat) (st : vstate) : untouched j st st.
Proof. by repeat split. Qed.

Lemma untouched_trans (j : nat) (st0 st1 st2 : vstate) :
  untouched j st0 st1 → untouched j st1 st2 → untouched j st0 st2.
Proof.
  unfold untouched.
  intros (E1 & A1 & B1 & C1 & D1 & G1 & H1) (E2 & A2 & B2 & C2 & D2 & G2 & H2).
  split_and!; [congruence|tauto..].
Qed.

Lemma elem_of_snoc_ne (j idx : nat) (l : list nat) :
  j ≠ idx → j ∈ l ++ [idx] ↔ j ∈ l.
Proof. intros Hne. rewrite elem_of_app, list_elem_of_singleton. tauto. Qed.

Ltac untouched_fields Hne :=
  unfold untouched;
  cbn [trace store idx_non_valid_mols idx_non_valid_atypes idx_charged
       idx_no3d idx_noh fatal log set_store add_non_valid_mol
       add_non_valid_atype add_charged add_no3d add_noh add_fatal];
  repeat rewrite events_of_app;
  repeat rewrite (events_of_other _ _ _ Hne);
  repeat rewrite app_nil_r;
  repeat rewrite (elem_of_snoc_ne _ _ _ Hne);
  repeat split; done.

Lemma step_untouched (self : calculator F) (st : vstate) (idx j : nat)
    (mol : pyobj) :
  j ≠ idx → untouched j st (preprocess_step self st idx mol).
Proof.
  intros Hne. unfold preprocess_step.
  destruct (_molcheck self (store (log idx Structure st)) mol);
    cbn [negb]; [|untouched_fields Hne].
  destruct mol as [l|]; [|untouched_fields Hne].
  destruct (_atomtypecheck self _ l); cbn [negb]; [|untouched_fields Hne].
  destruct (_chargecheck self _ l); [untouched_fields Hne|].
  destruct (_3dcheck self _ l) as [has_3d h3d].
  destruct (_hydrogencheck self _ l) as [has_h hh].
  destruct has_3d, has_h, (addh self); cbn [negb andb];
    untouched_fields Hne.
Qed.

Lemma loop_untouched (self : calculator F) (k j : nat) (xs : list pyobj)
    (st : vstate) :
  (j < k)%nat ∨ (k + length xs ≤ j)%nat →
  untouched j st (preprocess_loop self k xs st).
Proof.
  revert k st. induction xs as [|x xs IH]; intros k st Hj; simpl.
  - apply untouched_refl.
  - simpl in Hj. eapply untouched_trans.
    + apply (step_untouched self st k j x). lia.
    + apply IH. lia.
Qed.

Lemma reached_state_clean (self : calculator F) (mols : list pyobj)
    (h : gmap loc molecule) (idx : nat) :
  untouched idx (init_vstate h) (reached_state self mols h idx).
Proof.
  unfold reached_state. apply loop_untouched. right.
  rewrite length_take. lia.
Qed.

(** The final state, split at position [idx]. *)
Lemma preprocess_split (self : calculator F) (mols : list pyobj)
    (h : gmap loc molecule) (st : vstate) (idx : nat) (mol : pyobj) :
  _preprocess self mols h = Ok st →
  mols !! idx = Some mol →
  st = preprocess_loop self (S idx) (drop (S idx) mols)
         (preprocess_step self (reached_state self mols h idx) idx mol).
Proof.
  unfold _preprocess. destruct (Nat.eqb (length mols) 0); [done|].
  intros [= <-] Hidx.
  rewrite <- (take_drop_middle mols idx mol Hidx) at 1.
  rewrite preprocess_loop_app. simpl. unfold reached_state.
  apply lookup_lt_Some in Hidx.
  replace (length (take idx mols)) with idx by (rewrite length_take; lia).
  reflexivity.
Qed.

Lemma step_structure_fail (self : calculator F) (st : vstate) (idx : nat)
    (mol : pyobj) :
  _molcheck self (store st) mol = false →
  preprocess_step self st idx mol
  = add_fatal idx (add_non_valid_mol idx (log idx Structure st)).
Proof. intros Hmol. unfold preprocess_step. cbn [store log]. by rewrite Hmol. Qed.

Lemma step_atomtype_fail (self : calculator F) (st : vstate) (idx : nat)
    (l : loc) :
  _molcheck self (store st) (PyMolecule l) = true →
  _atomtypecheck self (store st) l = false →
  preprocess_step self st idx (PyMolecule l)
  = add_fatal idx
      (add_non_valid_atype idx (log idx AtomType (log idx Structure st))).
Proof.
  intros Hmol Hat. unfold preprocess_step. cbn [store log].
  by rewrite Hmol, Hat.
Qed.

Lemma step_charge_fail (self : calculator F) (st : vstate) (idx : nat)
    (l : loc) :
  _molcheck self (store st) (PyMolecule l) = true →
  _atomtypecheck self (store st) l = true →
  _chargecheck self (store st) l = true →
  preprocess_step self st idx (PyMolecule l)
  = add_fatal idx
      (add_charged idx
         (log idx Charge (log idx AtomType (log idx Structure st)))).
Proof.
  intros Hmol Hat Hch. unfold preprocess_step. cbn [store log].
  by rewrite Hmol, Hat, Hch.
Qed.

Lemma step_all_checks (self : calculator F) (st : vstate) (idx : nat)
    (l : loc) :
  _molcheck self (store st) (PyMolecule l) = true →
  _atomtypecheck self (store st) l = true →
  _chargecheck self (store st) l = false →
  let st' := preprocess_step self st idx (PyMolecule l) in
  trace st'
  = trace st ++ [(idx, Structure); (idx, AtomType); (idx, Charge);
                 (idx, Geometry); (idx, Hydrogen)] ∧
  idx_non_valid_mols st' = idx_non_valid_mols st ∧
  idx_non_valid_atypes st' = idx_non_valid_atypes st ∧
  idx_charged st' = idx_charged st.
Proof.
  intros Hmol Hat Hch. unfold preprocess_step. cbn [store log].
  rewrite Hmol, Hat, Hch. cbn [negb].
  destruct (_3dcheck self (store st) l) as [has_3d h3d].
  destruct has_3d; cbn [negb store set_store add_no3d log];
    destruct (_hydrogencheck self h3d l) as [has_h hh];
    destruct has_h, (addh self);
    cbn [negb andb trace store idx_non_valid_mols idx_non_valid_atypes
         idx_charged set_store add_no3d add_noh add_fatal log];
    by rewrite <- ?app_assoc.
Qed.

Ltac clean_position Hpre :=
  destruct Hpre as (Hev & Hm & Ha & Hc & H3 & Hh & Hf);
  cbn [trace store idx_non_valid_mols idx_non_valid_atypes idx_charged
       idx_no3d idx_noh fatal init_vstate] in Hev, Hm, Ha, Hc, H3, Hh, Hf.

(** C6. The checks of a molecule run in the order structure, atom
    type, charge, geometry, hydrogen, and stop at the first fatal one:
    a molecule that fails the structure check has no other check
    called on it, is recorded in [idx_non_valid_mols] and [fatal] and
    in no other list; one that fails the atom-type check has only the
    first two checks called, one that is charged only the first three,
    each recorded in its own list and [fatal] only; a molecule that
    passes these three has all five checks called, in order. The
    outcome of a check is that in the state in which the loop reaches
    the molecule. *)
Theorem checks_short_circuit (self : calculator F) (mols : list pyobj)
    (h : gmap loc molecule) (st : vstate) (idx : nat) (mol : pyobj) :
  _preprocess self mols h = Ok st →
  mols !! idx = Some mol →
  let pre := reached_state self mols h idx in
  (_molcheck self (store pre) mol = false →
   events_of idx (trace st) = [Structure] ∧
   idx ∈ idx_non_valid_mols st ∧ idx ∈ fatal st ∧
   (idx ∉ idx_non_valid_atypes st) ∧ (idx ∉ idx_charged st) ∧
   (idx ∉ idx_no3d st) ∧ (idx ∉ idx_noh st)) ∧
  (∀ l, mol = PyMolecule l →
        _molcheck self (store pre) mol = true →
        _atomtypecheck self (store pre) l = false →
        events_of idx (trace st) = [Structure; AtomType] ∧
        idx ∈ idx_non_valid_atypes st ∧ idx ∈ fatal st ∧
        (idx ∉ idx_non_valid_mols st) ∧ (idx ∉ idx_charged st) ∧
        (idx ∉ idx_no3d st) ∧ (idx ∉ idx_noh st)) ∧
  (∀ l, mol = PyMolecule l →
        _molcheck self (store pre) mol = true →
        _atomtypecheck self (store pre) l = true →
        _chargecheck self (store pre) l = true →
        events_of idx (trace st) = [Structure; AtomType; Charge] ∧
        idx ∈ idx_charged st ∧ idx ∈ fatal st ∧
        (idx ∉ idx_non_valid_mols st) ∧ (idx ∉ idx_non_valid_atypes st) ∧
        (idx ∉ idx_no3d st) ∧ (idx ∉ idx_noh st)) ∧
  (∀ l, mol = PyMolecule l →
        _molcheck self (store pre) mol = true →
        _atomtypecheck self (store pre) l = true →
        _chargecheck self (store pre) l = false →
        events_of idx (trace st)
        = [Structure; AtomType; Charge; Geometry; Hydrogen] ∧
        (idx ∉ idx_non_valid_mols st) ∧ (idx ∉ idx_non_valid_atypes st) ∧
        (idx ∉ idx_charged st)).
Proof.
  intros Hpp Hidx pre.
  pose proof (preprocess_split self mols h st idx mol Hpp Hidx) as Hst.
  fold pre in Hst.
  pose proof (reached_state_clean self mols h idx) as Hpre. fold pre in Hpre.
  clean_position Hpre.
  assert (untouched idx (preprocess_step self pre idx mol) st) as Hpost.
  { rewrite Hst. apply loop_untouched. left. lia. }
  destruct Hpost as (Pev & Pm & Pa & Pc & P3 & Ph & Pf).
  assert (∀ l : list nat, idx ∈ l ++ [idx]) as Hlast.
  { intros l. rewrite elem_of_app, list_elem_of_singleton. by right. }
  split; [|split; [|split]].
  - intros Hmol. rewrite Pev, Pm, Pf, Pa, Pc, P3, Ph.
    rewrite (step_structure_fail self pre idx mol Hmol).
    cbn [trace store idx_non_valid_mols idx_non_valid_atypes idx_charged
         idx_no3d idx_noh fatal log add_non_valid_mol add_fatal].
    rewrite events_of_app, events_of_same, Hev, Ha, Hc, H3, Hh.
    split_and!; try done; try apply Hlast; by intros ?%elem_of_nil.
  - intros l -> Hmol Hat.
    rewrite Pev, Pa, Pf, Pm, Pc, P3, Ph.
    rewrite (step_atomtype_fail self pre idx l Hmol Hat).
    cbn [trace store idx_non_valid_mols idx_non_valid_atypes idx_charged
         idx_no3d idx_noh fatal log add_non_valid_atype add_fatal].
    rewrite !events_of_app, !events_of_same, Hev, Hm, Hc, H3, Hh.
    split_and!; try done; try apply Hlast; by intros ?%elem_of_nil.
  - intros l -> Hmol Hat Hch.
    rewrite Pev, Pc, Pf, Pm, Pa, P3, Ph.
    rewrite (step_charge_fail self pre idx l Hmol Hat Hch).
    cbn [trace store idx_non_valid_mols idx_non_valid_atypes idx_charged
         idx_no3d idx_noh fatal log add_charged add_fatal].
    rewrite !events_of_app, !events_of_same, Hev, Hm, Ha, H3, Hh.
    split_and!; try done; try apply Hlast; by intros ?%elem_of_nil.
  - intros l -> Hmol Hat Hch.
    rewrite Pev, Pm, Pa, Pc.
    destruct (step_all_checks self pre idx l Hmol Hat Hch)
      as (-> & -> & -> & ->).
    rewrite events_of_app, Hev, Hm, Ha, Hc.
    split_and!; try (by intros ?%elem_of_nil).
    unfold events_of. simpl. by rewrite Nat.eqb_refl.
Qed.

(** ** The validator: what it mutates *)

Lemma hydrogencheck_frame (self : calculator F) (h : gmap loc molecule)
    (l l' : loc) :
  l' ∈ dom h → (_hydrogencheck self h l).2 !! l' = h !! l'.
Proof.
  intros Hdom. unfold _hydrogencheck. cbn [snd].
  assert (fresh (dom h) ≠ l') as Hne.
  { intros <-. by apply (is_fresh (dom h)). }
  by rewrite !lookup_insert_ne.
Qed.

Lemma _3dcheck_store (self : calculator F) (h : gmap loc molecule) (l : loc) :
  (_3dcheck self h l).2 = h ∨
  (force3d self = true ∧ dim (h !!! l) ≠ 3%Z ∧
   (_3dcheck self h l).2 = <[l := ob_make3D (h !!! l)]> h).
Proof.
  unfold _3dcheck. destruct (Z.eqb_spec (dim (h !!! l)) 3); cbn [negb snd].
  - by left.
  - destruct (force3d self); [right|left]; done.
Qed.

Lemma step_store (self : calculator F) (st : vstate) (idx : nat)
    (mol : pyobj) :
  store (preprocess_step self st idx mol) = store st ∨
  ∃ l, mol = PyMolecule l ∧
       store (preprocess_step self st idx mol)
       = (_hydrogencheck self (_3dcheck self (store st) l).2 l).2.
Proof.
  unfold preprocess_step. cbn [store log].
  destruct (_molcheck self (store st) mol); cbn [negb]; [|by left].
  destruct mol as [l|]; [|by left].
  destruct (_atomtypecheck self (store st) l); cbn [negb]; [|by left].
  destruct (_chargecheck self (store st) l); [by left|].
  right. exists l. split; [done|].
  destruct (_3dcheck self (store st) l) as [has_3d h3d].
  destruct has_3d; cbn [negb store set_store add_no3d log snd];
    destruct (_hydrogencheck self h3d l) as [has_h hh];
    by destruct has_h, (addh self).
Qed.

Lemma embedded_only_refl (self : calculator F) (mols : list pyobj)
    (h : gmap loc molecule) :
  embedded_only self mols h h.
Proof. intros l m0 Hl. exists 0. by split. Qed.

Lemma embedded_only_3dcheck (self : calculator F) (mols : list pyobj)
    (h0 h : gmap loc molecule) (l : loc) :
  PyMolecule l ∈ mols →
  embedded_only self mols h0 h →
  embedded_only self mols h0 (_3dcheck self h l).2.
Proof.
  intros Hin Hinv.
  destruct (_3dcheck_store self h l) as [->|(Hforce & Hdim & ->)]; [done|].
  intros l0 m0 Hl0. destruct (Hinv l0 m0 Hl0) as (k & Hk & Hside).
  destruct (decide (l = l0)) as [->|Hne].
  - exists (S k). rewrite lookup_insert_eq.
    rewrite (lookup_total_correct h l0 _ Hk). split; [done|].
    intros _. split_and!; [done..|].
    destruct k as [|k]; [|by apply Hside].
    by rewrite (lookup_total_correct h l0 _ Hk) in Hdim.
  - exists k. by rewrite lookup_insert_ne.
Qed.

Lemma embedded_only_hydrogencheck (self : calculator F) (mols : list pyobj)
    (h0 h : gmap loc molecule) (l : loc) :
  embedded_only self mols h0 h →
  embedded_only self mols h0 (_hydrogencheck self h l).2.
Proof.
  intros Hinv l0 m0 Hl0. destruct (Hinv l0 m0 Hl0) as (k & Hk & Hside).
  exists k. split; [|done].
  rewrite hydrogencheck_frame; [done|]. apply elem_of_dom. by eexists.
Qed.

Lemma embedded_only_step (self : calculator F) (mols : list pyobj)
    (h0 : gmap loc molecule) (st : vstate) (idx : nat) (mol : pyobj) :
  mol ∈ mols →
  embedded_only self mols h0 (store st) →
  embedded_only self mols h0 (store (preprocess_step self st idx mol)).
Proof.
  intros Hin Hinv.
  destruct (step_store self st idx mol) as [->|(l & -> & ->)]; [done|].
  by apply embedded_only_hydrogencheck, embedded_only_3dcheck.
Qed.

Lemma embedded_only_loop (self : calculator F) (mols xs : list pyobj)
    (h0 : gmap loc molecule) (st : vstate) (k : nat) :
  xs ⊆ mols →
  embedded_only self mols h0 (store st) →
  embedded_only self mols h0 (store (preprocess_loop self k xs st)).
Proof.
  revert k st. induction xs as [|x xs IH]; intros k st Hsub Hinv; simpl.
  - done.
  - apply IH.
    + intros y Hy. apply Hsub. by right.
    + apply embedded_only_step; [|done]. apply Hsub. by left.
Qed.

(** C10. The hydrogen check leaves every object of the store as it
    was, the molecule under validation included, whatever the flags of
    the calculator: its strip and re-add of hydrogens act on a clone at
    a fresh location. Over a whole validation, an object of the
    initial store ends as it began or embedded in 3d (by [make3D],
    once for each time the loop reached it without 3d coordinates),
    and the latter only under [force3d], for a molecule of the input
    that had no 3d coordinates. *)
Theorem validation_mutates_by_embedding_only (self : calculator F)
    (mols : list pyobj) (h : gmap loc molecule) (st : vstate) (l : loc)
    (m0 : molecule) :
  _preprocess self mols h = Ok st →
  h !! l = Some m0 →
  (∀ (hc : gmap loc molecule) (checked l' : loc),
     l' ∈ dom hc →
     let hc' := (_hydrogencheck self hc checked).2 in
     hc' !! l' = hc !! l' ∧
     atoms (hc' !!! l') = atoms (hc !!! l') ∧
     count_hydrogens (hc' !!! l') = count_hydrogens (hc !!! l')) ∧
  ∃ k,
    store st !! l = Some (Nat.iter k ob_make3D m0) ∧
    (k ≠ 0 → force3d self = true ∧ PyMolecule l ∈ mols ∧ dim m0 ≠ 3%Z).
Proof.
  intros Hpp Hl. split.
  - intros hc checked l' Hdom hc'.
    assert (hc' !! l' = hc !! l') as Heq by by apply hydrogencheck_frame.
    assert (hc' !!! l' = hc !!! l') as Htot.
    { apply elem_of_dom in Hdom as [m Hm].
      rewrite (lookup_total_correct hc l' m Hm).
      apply lookup_total_correct. by rewrite Heq. }
    by rewrite Htot.
  - unfold _preprocess in Hpp.
    destruct (Nat.eqb (length mols) 0); [done|]. injection Hpp as <-.
    apply (embedded_only_loop self mols mols h (init_vstate h) 0); [done| |done].
    apply embedded_only_refl.
Qed.

(** ** The baseline provider *)

Lemma xtb_loop_raise (self : calculator F) (pre post : list molecule)
    (m : molecule) (e : exn) (acc : list (string * list (xval F))) :
  Forall (λ m', is_ok (run_xtb_calc m' (xtbopt self)) = true) pre →
  run_xtb_calc m (xtbopt self) = Raise e →
  fold_res
    (λ xtb_props mol,
       do xtb_out <- run_xtb_calc mol (xtbopt self);
       Ok (foldl xtb_append xtb_props xtb_out))
    (pre ++ m :: post) acc
  = Raise e.
Proof.
  intros Hpre Hm. revert acc.
  induction Hpre as [|m' pre Hm' _ IH]; intros acc; simpl.
  - by rewrite Hm.
  - destruct (run_xtb_calc m' (xtbopt self)); [|done]. simpl. apply IH.
Qed.

Lemma first_failure {A B : Type} (f : A → result B) (xs : list A) :
  (∃ x, x ∈ xs ∧ is_ok (f x) = false) →
  ∃ pre x e post,
    xs = pre ++ x :: post ∧
    Forall (λ x', is_ok (f x') = true) pre ∧
    f x = Raise e.
Proof.
  induction xs as [|y xs IH].
  - by intros (x & ?%elem_of_nil & _).
  - intros (x & Hin & Hx). destruct (f y) as [b|e] eqn:Hy.
    + destruct IH as (pre & x' & e & post & -> & Hpre & Hx').
      { apply elem_of_cons in Hin as [->|Hin]; [|by eauto].
        by rewrite Hy in Hx. }
      exists (y :: pre), x', e, post. split_and!; [done| |done].
      constructor; [by rewrite Hy|done].
    + exists [], y, e, xs. by split_and!.
Qed.

(** C7. In delta mode the baseline tool runs on the valid molecules in
    order, and its first failure is the outcome of [predict]: the
    exception of that one molecule leaves the call, which returns no
    result for any molecule. *)
Theorem baseline_failure_aborts (self : calculator F) (input_ : list pyobj)
    (batch_size : nat) (h : gmap loc molecule) (st : vstate) :
  delta self = true →
  _preprocess self input_ h = Ok st →
  let valid := map (mol_of (store st)) (good_mols input_ st) in
  (∃ m, m ∈ valid ∧ is_ok (run_xtb_calc m (xtbopt self)) = false) →
  ∃ m e,
    m ∈ valid ∧
    run_xtb_calc m (xtbopt self) = Raise e ∧
    predict self (InList input_) batch_size h
    = Some (Outcome (Raise e) [] (store st)).
Proof.
  intros Hdelta Hpp valid Hfail.
  destruct (first_failure _ valid Hfail)
    as (pre & m & e & post & Hvalid & Hpre & Hm).
  exists m, e. split_and!; [|done|].
  - rewrite Hvalid, elem_of_app, elem_of_cons. auto.
  - unfold predict, predict_list. rewrite Hpp. fold valid.
    unfold predict_valid. rewrite Hdelta. unfold _get_xtb_props.
    rewrite Hvalid. by rewrite (xtb_loop_raise self pre post m e [] Hpre Hm).
Qed.

(** ** The result assembler *)

Lemma list_pop_reverse {A : Type} (x : A) (r : list A) :
  list_pop (reverse (x :: r)) = Some (x, reverse r).
Proof. unfold list_pop. by rewrite reverse_involutive. Qed.

Lemma list_pop_nil {A : Type} : list_pop (@nil A) = None.
Proof. reflexivity. Qed.

(** What the loop of the assembler computes on a list [dense] that has
    an entry for every position that is not fatal: the entries of
    [dense] from its END go to the valid positions in order. *)
Lemma assemble_loop_fill (idxs fatal : list nat) (key : string)
    (dense temp : list (pyval F)) :
  count_valid idxs fatal ≤ length dense →
  assemble_loop idxs fatal key (PopList dense) temp
  = Ok (temp ++ fill idxs fatal key (reverse dense)).
Proof.
  revert dense temp. induction idxs as [|idx idxs IH]; intros dense temp Hlen.
  - simpl. by rewrite app_nil_r.
  - unfold count_valid in Hlen. simpl in *. case_bool_decide; simpl in Hlen.
    + rewrite IH by done. by rewrite <- app_assoc.
    + rewrite <- (reverse_involutive dense) in *.
      destruct (reverse dense) as [|x r].
      { simpl in Hlen. lia. }
      rewrite list_pop_reverse. simpl.
      rewrite IH.
      * by rewrite !reverse_involutive, <- app_assoc.
      * rewrite length_reverse in *. simpl in Hlen. unfold count_valid. lia.
Qed.

Lemma assemble_key_reverses (n : nat) (fatal : list nat) (key : string)
    (xs : list F) :
  key ≠ "charges" →
  count_valid (seq 0 n) fatal ≤ length xs →
  assemble_key n fatal key (VArr (A1 xs))
  = Ok (fill (seq 0 n) fatal key (reverse (map PyFloat xs))).
Proof.
  intros Hkey Hlen. unfold assemble_key, assembler_val.
  rewrite bool_decide_eq_false_2 by done. simpl.
  rewrite assemble_loop_fill; [done|]. by rewrite length_map.
Qed.

Lemma assemble_charges_reverses (n : nat) (fatal : list nat)
    (arrs : list (ndarray F)) :
  count_valid (seq 0 n) fatal ≤ length arrs →
  assemble_key n fatal "charges" (VList arrs)
  = Ok (fill (seq 0 n) fatal "charges" (reverse (map PyArr arrs))).
Proof.
  intros Hlen. unfold assemble_key, assembler_val. simpl.
  rewrite assemble_loop_fill; [done|]. by rewrite length_map.
Qed.

(** Whenever the loop of the assembler ends, it has appended one entry
    per position, and the placeholder at the fatal ones. *)
Lemma assemble_loop_shape (idxs fatal : list nat) (key : string)
    (val : popval F) (temp out : list (pyval F)) :
  assemble_loop idxs fatal key val temp = Ok out →
  ∃ ext,
    out = temp ++ ext ∧
    length ext = length idxs ∧
    ∀ i idx, idxs !! i = Some idx → idx ∈ fatal →
             ext !! i = Some (placeholder key).
Proof.
  revert val temp. induction idxs as [|idx idxs IH]; intros val temp; simpl.
  - intros [= <-]. exists []. rewrite app_nil_r. split_and!; [done..|].
    intros i idx Hi. by rewrite lookup_nil in Hi.
  - case_bool_decide as Hf.
    + intros (ext & -> & Hlen & Hph)%IH.
      exists (placeholder key :: ext). rewrite <- app_assoc.
      split_and!; [done|by simpl; rewrite Hlen|].
      intros [|i] idx' Hi Hin; simpl in *; [done|]. by eapply Hph.
    + destruct (py_pop val) as [[x val']|]; simpl; [|done].
      intros (ext & -> & Hlen & Hph)%IH.
      exists (x :: ext). rewrite <- app_assoc.
      split_and!; [done|by simpl; rewrite Hlen|].
      intros [|i] idx' Hi Hin; simpl in *; [|by eapply Hph].
      by injection Hi as ->.
Qed.

Lemma assemble_key_shape (n : nat) (fatal : list nat) (key : string)
    (val : pval F) (out : list (pyval F)) :
  assemble_key n fatal key val = Ok out →
  length out = n ∧
  ∀ idx, idx < n → idx ∈ fatal → out !! idx = Some (placeholder key).
Proof.
  unfold assemble_key. destruct (assembler_val key val) as [v|]; [|done].
  simpl. intros (ext & -> & Hlen & Hph)%assemble_loop_shape.
  rewrite length_seq in Hlen. simpl. split; [done|].
  intros idx Hidx Hin. apply (Hph idx idx); [|done].
  by apply lookup_seq_lt.
Qed.

Lemma dict_get_set {V : Type} (k k' : string) (v : V)
    (d : list (string * V)) :
  dict_get k (dict_set k' v d)
  = if bool_decide (k = k') then Some v else dict_get k d.
Proof.
  induction d as [|[k0 v0] d IH]; simpl.
  - done.
  - do 2 case_bool_decide; simplify_eq; simpl;
      repeat case_bool_decide; simplify_eq; try done.
Qed.

Lemma assemble_shape (n : nat) (fatal : list nat)
    (preds_filtered : list (string * pval F))
    (acc preds_final : list (string * list (pyval F))) :
  fold_res
    (λ preds_final (entry : string * pval F),
       do temp <- assemble_key n fatal entry.1 entry.2;
       Ok (dict_set entry.1 temp preds_final))
    preds_filtered acc
  = Ok preds_final →
  ∀ key out,
    dict_get key preds_final = Some out →
    dict_get key acc = Some out ∨
    ∃ val, assemble_key n fatal key val = Ok out.
Proof.
  revert acc. induction preds_filtered as [|[k v] rest IH]; intros acc; simpl.
  - intros [= <-]. auto.
  - destruct (assemble_key n fatal k v) as [temp|] eqn:Hk; simpl; [|done].
    intros Hfold key out Hget.
    destruct (IH _ Hfold key out Hget) as [Hacc|?]; [|by right].
    rewrite dict_get_set in Hacc. case_bool_decide; simplify_eq; eauto.
Qed.

(** X10. Whenever [predict] on a list returns, every task's sequence
    has the length of the input and the placeholder at every fatal
    position. *)
Lemma predict_list_shape (self : calculator F) (input_ : list pyobj)
    (batch_size : nat) (h : gmap loc molecule) (st : vstate)
    (preds_final : list (string * list (pyval F))) :
  _preprocess self input_ h = Ok st →
  (predict_list self input_ batch_size h).1 = Ok preds_final →
  ∀ key out,
    dict_get key preds_final = Some out →
    length out = length input_ ∧
    ∀ idx, idx < length input_ → idx ∈ fatal st →
           out !! idx = Some (placeholder key).
Proof.
  intros Hpp. unfold predict_list. rewrite Hpp. cbn [fst].
  unfold predict_valid.
  destruct (if delta self then _ else _) as [xtb_props|]; [|done]. simpl.
  destruct (DataLoader _ _) as [loader|]; [|done]. simpl.
  destruct (fold_res (model_step _ _) _ _) as [preds|]; [|done]. simpl.
  destruct (fold_res (route_step _) _ _) as [pf|]; [|done]. simpl.
  destruct (if delta self then _ else _) as [pf'|]; [|done]. simpl.
  intros Hasm key out Hget.
  destruct (assemble_shape _ _ _ _ _ Hasm key out Hget) as [?|[val Hval]];
    [done|].
  by apply assemble_key_shape in Hval.
Qed.

(** ** The delta corrector *)

Lemma np_array_f32_scalars (bs : list F) :
  np_array_f32 f32 (map XScalar bs) = Ok (A1 (map f32 bs)).
Proof.
  unfold np_array_f32.
  replace (mapM xscalar (map XScalar bs)) with (Some bs); [done|].
  induction bs as [|b bs IH]; [done|]. simpl. by rewrite <- IH.
Qed.

(** X21. A molecule-level task in delta mode: every entry of the
    dense array is the sum of the learned delta and the baseline value,
    converted to [float32], of the same molecule. *)
Lemma delta_value_scalars (xtb_props : list (string * list (xval F)))
    (prop : string) (ds bs : list F) :
  prop ≠ "charges" →
  xtb_get prop xtb_props = map XScalar bs →
  length ds = length bs →
  delta_value xtb_props prop (VArr (A1 ds))
  = Ok (VArr (A1 (zip_with fadd ds (map f32 bs)))).
Proof.
  intros Hprop Hxtb Hlen. unfold delta_value.
  rewrite bool_decide_eq_false_2 by done.
  rewrite Hxtb, np_array_f32_scalars. simpl.
  rewrite bc_row_same_length; [done|]. by rewrite length_map.
Qed.

(** X22. Charges in delta mode: for every molecule of the dense list,
    the element-wise sum of its per-atom delta and its per-atom
    baseline. *)
Lemma delta_value_charges (xtb_props : list (string * list (xval F)))
    (dss bss : list (list F)) :
  xtb_get "charges" xtb_props = map XVec bss →
  Forall2 (λ d b, length d = length b) dss bss →
  delta_value xtb_props "charges" (VList (map A1 dss))
  = Ok (VList (map A1 (zip_with (zip_with fadd) dss bss))).
Proof.
  intros Hxtb Hlen. unfold delta_value. simpl. rewrite Hxtb.
  clear Hxtb.
  assert (map_res
            (λ p : ndarray F * xval F, np_binop fadd p.1 (np_array_val p.2))
            (zip (map A1 dss) (map XVec bss))
          = Ok (map A1 (zip_with (zip_with fadd) dss bss))) as ->; [|done].
  induction Hlen as [|d b dss bss Hdb _ IH]; [reflexivity|].
  cbn [map zip zip_with map_res fst snd np_array_val np_binop].
  rewrite bc_row_same_length by done. cbn [rbind]. by rewrite IH.
Qed.

(** ** Streaming *)

Lemma pull_spec (n : nat) (generator mols : list pyobj) :
  pull n generator mols
  = (mols ++ take n generator, drop n generator,
     bool_decide (length generator < n)).
Proof.
  revert generator mols. induction n as [|n IH]; intros generator mols.
  - rewrite take_0, drop_0, app_nil_r.
    by rewrite bool_decide_eq_false_2 by lia.
  - destruct generator as [|mol rest]; cbn [pull].
    + rewrite take_nil, drop_nil, app_nil_r.
      by rewrite bool_decide_eq_true_2 by (cbn; lia).
    + rewrite IH, <- app_assoc. cbn [take drop app length]. do 2 f_equal.
      apply bool_decide_ext. lia.
Qed.

Lemma predict_list_nil (self : calculator F) (batch_size : nat)
    (h : gmap loc molecule) :
  predict_list self [] batch_size h
  = (Raise (ValueError "No molecules provided."), h).
Proof. reflexivity. Qed.

(** The loop of [_predict_batch] ends within one iteration more than
    the generator has items. *)
Lemma batch_loop_total (self : calculator F) (fuel : nat)
    (generator : list pyobj) (batch_size : nat) (h : gmap loc molecule)
    (preds_batch : list (list (string * list (pyval F)))) :
  length generator < fuel →
  is_Some (batch_loop fuel self generator batch_size h preds_batch).
Proof.
  revert generator h preds_batch.
  induction fuel as [|fuel IH]; intros generator h preds_batch Hfuel; [lia|].
  simpl. rewrite pull_spec. simpl.
  destruct (take batch_size generator) as [|mol chunk] eqn:Hchunk.
  { rewrite predict_list_nil. by eexists. }
  rewrite <- Hchunk.
  destruct (predict_list self _ batch_size h) as [[preds|e] h']; [|by eexists].
  case_bool_decide; [by eexists|].
  apply IH. rewrite length_drop.
  assert (length (take batch_size generator) ≠ 0) by by rewrite Hchunk.
  rewrite length_take in *. lia.
Qed.

Lemma predict_batch_total (self : calculator F) (generator : list pyobj)
    (batch_size : nat) (h : gmap loc molecule) :
  is_Some (_predict_batch self generator batch_size h).
Proof.
  unfold _predict_batch.
  destruct (batch_loop_total self (S (length generator)) generator batch_size
              h []) as [[[r g] h'] ->]; [lia|].
  destruct r; by eexists.
Qed.

(** On a generator whose length is a multiple of [batch_size], the
    loop ends with an exception: that of a chunk, or that of the empty
    chunk pulled after the last full one. *)
Lemma batch_loop_exact_multiple (self : calculator F) (k fuel : nat)
    (generator : list pyobj) (batch_size : nat) (h : gmap loc molecule)
    (preds_batch : list (list (string * list (pyval F)))) :
  batch_size ≠ 0 →
  length generator = k * batch_size →
  length generator < fuel →
  ∃ e g' h',
    batch_loop fuel self generator batch_size h preds_batch
    = Some (Raise e, g', h').
Proof.
  intros Hbs. revert fuel generator h preds_batch.
  induction k as [|k IH]; intros fuel generator h preds_batch Hlen Hfuel.
  - destruct generator; [|done]. destruct fuel as [|fuel]; [lia|].
    cbn [batch_loop]. rewrite pull_spec, take_nil, drop_nil. cbn [app].
    rewrite predict_list_nil. eauto.
  - destruct fuel as [|fuel]; [lia|].
    cbn [batch_loop]. rewrite pull_spec. cbn [app].
    destruct (predict_list self _ batch_size h) as [[preds|e] h']; [|eauto].
    rewrite bool_decide_eq_false_2 by (simpl in Hlen; lia).
    apply IH.
    + rewrite length_drop. simpl in Hlen. lia.
    + rewrite length_drop. simpl in Hlen. lia.
Qed.

(** X19. Streaming over a generator whose length is a multiple of
    [batch_size] never returns a result: [predict] ends with an
    exception. *)
Lemma streaming_exact_multiple_raises (self : calculator F) (k : nat)
    (generator : list pyobj) (batch_size : nat) (h : gmap loc molecule) :
  batch_size ≠ 0 →
  length generator = k * batch_size →
  ∃ o,
    predict self (InGenerator generator) batch_size h = Some o ∧
    is_ok (out_result o) = false.
Proof.
  intros Hbs Hlen. simpl. unfold _predict_batch.
  destruct (batch_loop_exact_multiple self k (S (length generator)) generator
              batch_size h [] Hbs Hlen) as (e & g' & h' & ->); [lia|].
  by eexists.
Qed.

(** ** No valid molecule *)

Lemma model_loop_no_batch (self : calculator F) (ms : list string)
    (preds : list (string * pval F)) :
  (∃ m, m ∈ ms ∧ str_contains "charges" m = false) →
  fold_res (model_step self []) ms preds
  = Raise (ValueError "need at least one array to concatenate").
Proof.
  revert preds. induction ms as [|m ms IH]; intros preds (m' & Hin & Hm').
  - by apply elem_of_nil in Hin.
  - cbn [fold_res]. unfold model_step at 1, _get_preds, aggregate.
    cbn [map zip fold_res].
    destruct (str_contains "charges" m) eqn:Hm; cbn [rbind np_vstack].
    + apply IH. exists m'. split; [|done].
      apply elem_of_cons in Hin as [->|Hin]; [congruence|done].
    + done.
Qed.

(** X11. When no molecule of the input is valid, no batch is run, and
    a calculator with a model other than the charges model raises out
    of [np.vstack]: [predict] has no output, whatever the externals. *)
Lemma predict_all_fatal_raises (self : calculator F) (input_ : list pyobj)
    (batch_size : nat) (h : gmap loc molecule) (st : vstate) :
  _preprocess self input_ h = Ok st →
  good_mols input_ st = [] →
  batch_size ≠ 0 →
  (∃ m, m ∈ models self ∧ str_contains "charges" m = false) →
  (predict_list self input_ batch_size h).1
  = Raise (ValueError "need at least one array to concatenate").
Proof.
  intros Hpp Hgood Hbs Hm. unfold predict_list. rewrite Hpp, Hgood.
  cbn [fst map]. unfold predict_valid, _get_xtb_props, DataLoader.
  destruct (Nat.eqb_spec batch_size 0) as [|_]; [done|].
  cbn [fold_res batch_sampler].
  destruct (delta self); cbn [rbind]; by rewrite model_loop_no_batch.
Qed.

(** ** The validator: [fatal] and the valid molecules *)

Lemma step_fatal (self : calculator F) (st : vstate) (idx : nat)
    (mol : pyobj) :
  fatal (preprocess_step self st idx mol) = fatal st ∨
  fatal (preprocess_step self st idx mol) = fatal st ++ [idx].
Proof.
  unfold preprocess_step. cbn [store log].
  destruct (_molcheck self (store st) mol); cbn [negb]; [|by right].
  destruct mol as [l|]; [|by left].
  destruct (_atomtypecheck self (store st) l); cbn [negb]; [|by right].
  destruct (_chargecheck self (store st) l); [by right|].
  destruct (_3dcheck self (store st) l) as [has_3d h3d].
  destruct has_3d; cbn [negb store set_store add_no3d log];
    destruct (_hydrogencheck self h3d l) as [has_h hh];
    destruct has_h, (addh self); cbn; auto.
Qed.

Lemma loop_fatal (self : calculator F) (k : nat) (xs : list pyobj)
    (st : vstate) :
  ∃ ext,
    fatal (preprocess_loop self k xs st) = fatal st ++ ext ∧
    StronglySorted lt ext ∧
    Forall (λ i, k ≤ i < k + length xs) ext.
Proof.
  revert k st. induction xs as [|x xs IH]; intros k st; simpl.
  - exists []. rewrite app_nil_r. split_and!; [done|constructor|constructor].
  - destruct (IH (S k) (preprocess_step self st k x)) as (ext & -> & Hs & Hb).
    assert (Forall (λ i, k ≤ i < k + S (length xs)) ext) as Hb'.
    { eapply Forall_impl; [exact Hb|]. intros i Hi. simpl in Hi. lia. }
    destruct (step_fatal self st k x) as [->| ->].
    + exists ext. by split_and!.
    + exists (k :: ext). rewrite <- app_assoc. split_and!; [done| |].
      * constructor; [done|]. eapply Forall_impl; [exact Hb|].
        intros i Hi. simpl in Hi. lia.
      * constructor; [lia|done].
Qed.

Lemma select_good_length_filter (k : nat) (xs : list pyobj) (f : list nat) :
  length (select_good k xs f)
  = length (filter (λ i, i ∉ f) (seq k (length xs))).
Proof.
  revert k. induction xs as [|x xs IH]; intros k; [done|].
  cbn [select_good length seq]. rewrite filter_cons.
  case_bool_decide; case_decide; try done; simpl; by rewrite IH.
Qed.

Lemma select_good_count (k : nat) (xs : list pyobj) (f : list nat) :
  NoDup f →
  Forall (λ i, k ≤ i < k + length xs) f →
  length (select_good k xs f) + length f = length xs.
Proof.
  intros Hnd Hb. rewrite select_good_length_filter.
  assert (filter (λ i, i ∈ f) (seq k (length xs)) ≡ₚ f) as Hperm.
  { apply NoDup_Permutation; [apply NoDup_filter, NoDup_seq|done|].
    intros i. rewrite list_elem_of_filter, elem_of_seq.
    rewrite Forall_forall in Hb. split; [tauto|].
    intros Hi. split; [done|]. by apply Hb. }
  assert (length f = length (filter (λ i, i ∈ f) (seq k (length xs)))) as ->.
  { by rewrite Hperm. }
  rewrite Nat.add_comm, <- length_app.
  by rewrite filter_app_complement, length_seq.
Qed.

Lemma StronglySorted_lt_NoDup (l : list nat) : StronglySorted lt l → NoDup l.
Proof.
  induction 1 as [|x l _ IH Hx]; constructor; [|done].
  intros Hin. rewrite Forall_forall in Hx. specialize (Hx x Hin). lia.
Qed.

(** X1. The indices of [fatal] are positions of the input, in strictly
    increasing order (so none is listed twice), and the valid
    molecules are all the others: their number and the number of fatal
    indices add up to the length of the input. *)
Theorem fatal_indices_partition (self : calculator F) (mols : list pyobj)
    (h : gmap loc molecule) (st : vstate) :
  _preprocess self mols h = Ok st →
  StronglySorted lt (fatal st) ∧
  Forall (λ i, i < length mols) (fatal st) ∧
  length (good_mols mols st) + length (fatal st) = length mols.
Proof.
  unfold _preprocess. destruct (Nat.eqb (length mols) 0); [done|].
  intros [= <-].
  destruct (loop_fatal self 0 mols (init_vstate h)) as (ext & Hf & Hs & Hb).
  cbn [fatal init_vstate app] in Hf. unfold good_mols. rewrite Hf.
  split_and!; [done| |].
  - eapply Forall_impl; [exact Hb|]. intros i Hi. simpl in Hi. lia.
  - apply select_good_count; [by apply StronglySorted_lt_NoDup|done].
Qed.

Lemma select_good_elem (k : nat) (xs : list pyobj) (f : list nat)
    (o : pyobj) :
  o ∈ select_good k xs f → ∃ i, xs !! i = Some o ∧ (k + i) ∉ f.
Proof.
  revert k. induction xs as [|x xs IH]; intros k; simpl.
  - by intros ?%elem_of_nil.
  - case_bool_decide as Hk.
    + intros (i & Hi & Hf)%IH. exists (S i). split; [done|].
      by replace (k + S i) with (S k + i) by lia.
    + intros [->|(i & Hi & Hf)%IH]%elem_of_cons.
      * exists 0. split; [done|]. by rewrite Nat.add_0_r.
      * exists (S i). split; [done|].
        by replace (k + S i) with (S k + i) by lia.
Qed.

Lemma select_good_sublist (k : nat) (xs : list pyobj) (f : list nat) :
  sublist (select_good k xs f) xs.
Proof.
  revert k. induction xs as [|x xs IH]; intros k; simpl; [done|].
  case_bool_decide; [by apply sublist_cons|by apply sublist_skip].
Qed.

(** X2. The valid molecules are molecules of the input, in the order
    of the input, and each is a molecule object: an element of the
    input of any other type is never among them. *)
Theorem good_mols_are_molecules (self : calculator F) (mols : list pyobj)
    (h : gmap loc molecule) (st : vstate) :
  _preprocess self mols h = Ok st →
  sublist (good_mols mols st) mols ∧
  ∀ o, o ∈ good_mols mols st → ∃ l, o = PyMolecule l.
Proof.
  intros Hpp. split; [apply select_good_sublist|].
  intros o (i & Hi & Hf)%select_good_elem. simpl in Hf.
  destruct o as [l|]; [by eexists|]. exfalso. apply Hf.
  pose proof (preprocess_split self mols h st i PyOther Hpp Hi) as Hst.
  assert (untouched i (preprocess_step self (reached_state self mols h i) i
                         PyOther) st) as (_ & _ & _ & _ & _ & _ & Hfat).
  { rewrite Hst. apply loop_untouched. left. lia. }
  apply Hfat. rewrite step_structure_fail by done.
  cbn [fatal add_fatal add_non_valid_mol log].
  rewrite elem_of_app, list_elem_of_singleton. by right.
Qed.

Lemma step_fatal_iff (self : calculator F) (st : vstate) (idx : nat)
    (mol : pyobj) :
  idx ∉ idx_non_valid_mols st → idx ∉ idx_non_valid_atypes st →
  idx ∉ idx_charged st → idx ∉ idx_no3d st → idx ∉ idx_noh st →
  idx ∉ fatal st →
  let st' := preprocess_step self st idx mol in
  idx ∈ fatal st' ↔
  idx ∈ idx_non_valid_mols st' ∨ idx ∈ idx_non_valid_atypes st' ∨
  idx ∈ idx_charged st' ∨
  (addh self = false ∧ idx ∈ idx_no3d st' ∧ idx ∈ idx_noh st').
Proof.
  intros Hm Ha Hc H3 Hh Hf.
  assert (∀ l : list nat, idx ∈ l ++ [idx]) as Hlast.
  { intros l. rewrite elem_of_app, list_elem_of_singleton. by right. }
  unfold preprocess_step. cbn [store log].
  destruct (_molcheck self (store st) mol); cbn [negb].
  2:{ cbn. split; [intros _; left; apply Hlast|intros _; apply Hlast]. }
  destruct mol as [l|].
  { destruct (_atomtypecheck self (store st) l); cbn [negb].
    2:{ cbn. split; [intros _; right; left; apply Hlast|intros _; apply Hlast]. }
    destruct (_chargecheck self (store st) l).
    { cbn. split; [intros _; right; right; left; apply Hlast|].
      intros _; apply Hlast. }
    destruct (_3dcheck self (store st) l) as [has_3d h3d].
    destruct has_3d; cbn [negb store set_store add_no3d log];
      destruct (_hydrogencheck self h3d l) as [has_h hh];
      destruct has_h, (addh self); cbn;
      (split; [intros Hin|intros Hin]);
      try (exfalso; tauto);
      try apply Hlast;
      try (right; right; right; split_and!; [done|apply Hlast..]);
      destruct Hin as [?|[?|[?|(? & ? & ?)]]]; done. }
  cbn. tauto.
Qed.

(** X3. A position is fatal exactly when it is recorded as an invalid
    structure, as an unsupported atom type, as charged, or, for a
    calculator without [addh], as lacking both 3d coordinates and
    hydrogens. With [addh] set, a missing geometry or missing hydrogens
    never make a molecule fatal. *)
Theorem fatal_iff_diagnostics (self : calculator F) (mols : list pyobj)
    (h : gmap loc molecule) (st : vstate) (idx : nat) :
  _preprocess self mols h = Ok st →
  idx ∈ fatal st ↔
  idx ∈ idx_non_valid_mols st ∨ idx ∈ idx_non_valid_atypes st ∨
  idx ∈ idx_charged st ∨
  (addh self = false ∧ idx ∈ idx_no3d st ∧ idx ∈ idx_noh st).
Proof.
  intros Hpp. destruct (mols !! idx) as [mol|] eqn:Hidx.
  - pose proof (preprocess_split self mols h st idx mol Hpp Hidx) as Hst.
    pose proof (reached_state_clean self mols h idx) as Hpre.
    set (pre := reached_state self mols h idx) in *.
    clean_position Hpre.
    assert (untouched idx (preprocess_step self pre idx mol) st)
      as (_ & Pm & Pa & Pc & P3 & Ph & Pf).
    { rewrite Hst. apply loop_untouched. left. lia. }
    rewrite Pm, Pa, Pc, P3, Ph, Pf.
    apply step_fatal_iff; rewrite ?Hm, ?Ha, ?Hc, ?H3, ?Hh, ?Hf;
      by intros ?%elem_of_nil.
  - apply lookup_ge_None in Hidx.
    unfold _preprocess in Hpp. destruct (Nat.eqb (length mols) 0); [done|].
    injection Hpp as <-.
    destruct (loop_untouched self 0 idx mols (init_vstate h))
      as (_ & Pm & Pa & Pc & P3 & Ph & Pf); [right; lia|].
    rewrite Pm, Pa, Pc, P3, Ph, Pf. cbn.
    split; [by intros ?%elem_of_nil|].
    intros [?%elem_of_nil|[?%elem_of_nil|[?%elem_of_nil|(_ & ?%elem_of_nil & _)]]];
      done.
Qed.

(** X4. Without [force3d] the validator changes no object: every
    object of the store is after [_preprocess] what it was before. *)
Theorem no_force3d_no_mutation (self : calculator F) (mols : list pyobj)
    (h : gmap loc molecule) (st : vstate) (l : loc) (m : molecule) :
  force3d self = false →
  _preprocess self mols h = Ok st →
  h !! l = Some m →
  store st !! l = Some m.
Proof.
  intros Hforce Hpp Hl. unfold _preprocess in Hpp.
  destruct (Nat.eqb (length mols) 0); [done|]. injection Hpp as <-.
  destruct (embedded_only_loop self mols mols h (init_vstate h) 0)
    with (l := l) (m0 := m) as (k & Hk & Hside); [done| |done|].
  { apply embedded_only_refl. }
  destruct k as [|k]; [done|].
  destruct Hside as (Hf & _); [done|]. congruence.
Qed.

(** ** The baseline provider: what it collects *)

Lemma dict_get_None {V : Type} (k : string) (d : list (string * V)) :
  k ∉ d.*1 → dict_get k d = None.
Proof.
  induction d as [|[k' v] d IH]; simpl; [done|].
  rewrite not_elem_of_cons. intros [Hne Hd].
  rewrite bool_decide_eq_false_2 by done. by apply IH.
Qed.

Lemma xtb_get_append (xtb_props : list (string * list (xval F)))
    (item : string * xval F) (prop : string) :
  xtb_get prop (xtb_append xtb_props item)
  = if bool_decide (prop = item.1) then xtb_get prop xtb_props ++ [item.2]
    else xtb_get prop xtb_props.
Proof.
  unfold xtb_append, xtb_get at 1. rewrite dict_get_set.
  case_bool_decide; [by subst|done].
Qed.

Lemma xtb_get_foldl (xtb_props : list (string * list (xval F)))
    (xtb_out : list (string * xval F)) (prop : string) :
  NoDup xtb_out.*1 →
  xtb_get prop (foldl xtb_append xtb_props xtb_out)
  = xtb_get prop xtb_props
    ++ match dict_get prop xtb_out with Some v => [v] | None => [] end.
Proof.
  revert xtb_props.
  induction xtb_out as [|[k v] rest IH]; intros xtb_props Hnd; simpl.
  - by rewrite app_nil_r.
  - simpl in Hnd. apply NoDup_cons in Hnd as [Hk Hnd].
    rewrite IH by done. rewrite xtb_get_append. simpl.
    case_bool_decide as Hp.
    + subst. rewrite (dict_get_None k rest Hk). by rewrite app_nil_r.
    + done.
Qed.

(** X5. When the baseline tool succeeds on every molecule, the values
    it reports for a property are collected in the order of the
    molecules, one for each molecule whose output has the property. *)
Theorem xtb_props_in_molecule_order (self : calculator F)
    (mols : list molecule) (out : molecule → list (string * xval F)) :
  Forall (λ m, run_xtb_calc m (xtbopt self) = Ok (out m) ∧
               NoDup (out m).*1) mols →
  ∃ xtb_props,
    _get_xtb_props self mols = Ok xtb_props ∧
    ∀ prop,
      xtb_get prop xtb_props = omap (λ m, dict_get prop (out m)) mols.
Proof.
  intros Hmols. unfold _get_xtb_props.
  assert (∀ acc,
    ∃ xtb_props,
      fold_res
        (λ xtb_props mol,
           do xtb_out <- run_xtb_calc mol (xtbopt self);
           Ok (foldl xtb_append xtb_props xtb_out)) mols acc
      = Ok xtb_props ∧
      ∀ prop,
        xtb_get prop xtb_props
        = xtb_get prop acc ++ omap (λ m, dict_get prop (out m)) mols) as Hgen.
  { induction Hmols as [|m mols [Hm Hnd] _ IH]; intros acc.
    - exists acc. split; [done|]. intros prop. by rewrite app_nil_r.
    - cbn [fold_res]. rewrite Hm. cbn [rbind].
      destruct (IH (foldl xtb_append acc (out m))) as (props & -> & Hprops).
      exists props. split; [done|]. intros prop.
      rewrite Hprops, xtb_get_foldl by done. rewrite <- app_assoc.
      f_equal. cbn [omap list_omap]. by destruct (dict_get prop (out m)). }
  destruct (Hgen []) as (props & -> & Hprops).
  exists props. split; [done|]. intros prop. by rewrite Hprops.
Qed.

(** ** The aggregator: per-atom output *)

Lemma map_res_ext {A B : Type} (f g : A → result B) (xs : list A) :
  (∀ x, f x = g x) → map_res f xs = map_res g xs.
Proof. intros Hfg. induction xs as [|x xs IH]; simpl; [done|]. by rewrite Hfg, IH. Qed.

Lemma map_res_fmap {A B C : Type} (f : B → result C) (g : A → B)
    (xs : list A) :
  map_res f (map g xs) = map_res (λ x, f (g x)) xs.
Proof. induction xs as [|x xs IH]; simpl; [done|]. by rewrite IH. Qed.

Lemma ptr_from_head (acc : nat) (batch : list molecule) :
  nth 0 (ptr_from acc batch) 0 = acc.
Proof. by destruct batch. Qed.

Lemma ptr_from_length (acc : nat) (batch : list molecule) :
  length (ptr_from acc batch) = S (length batch).
Proof.
  revert acc. induction batch as [|m batch IH]; intros acc; simpl; [done|].
  by rewrite IH.
Qed.

Lemma split_by_ptr_from (ys : list F) (acc : nat) (batch : list molecule) :
  map_res
    (λ idx, np_slice (A1 ys) (nth idx (ptr_from acc batch) 0)
              (nth (idx + 1) (ptr_from acc batch) 0))
    (seq 0 (length batch))
  = Ok (map A1 (cut_by (atom_counts batch) (drop acc ys))).
Proof.
  revert acc. induction batch as [|m batch IH]; intros acc; [done|].
  cbn [length seq map_res ptr_from atom_counts map cut_by].
  cbn [nth Nat.add np_slice rbind]. rewrite ptr_from_head.
  rewrite <- fmap_S_seq.
  change (S <$> seq 0 (length batch)) with (map S (seq 0 (length batch))).
  rewrite map_res_fmap.
  rewrite (map_res_ext _
             (λ idx, np_slice (A1 ys)
                       (nth idx (ptr_from (acc + length (atoms m)) batch) 0)
                       (nth (idx + 1)
                          (ptr_from (acc + length (atoms m)) batch) 0))).
  2:{ intros idx. by replace (S idx + 1) with (S (idx + 1)) by lia. }
  rewrite IH. cbn [rbind]. rewrite drop_drop. unfold py_slice, atom_counts.
  by replace (acc + length (atoms m) - acc) with (length (atoms m)) by lia.
Qed.

Lemma split_by_ptr_batch (ys : list F) (batch : list molecule) :
  split_by_ptr (A1 ys) (batch_ptr batch)
  = Ok (map A1 (cut_by (atom_counts batch) ys)).
Proof.
  unfold split_by_ptr, batch_ptr. rewrite ptr_from_length.
  replace (S (length batch) - 1) with (length batch) by lia.
  by rewrite split_by_ptr_from, drop_0.
Qed.

Lemma cut_by_exact {A : Type} (sizes : list nat) (ys : list A) :
  length ys = sum_list sizes →
  Forall2 (λ piece n, length piece = n) (cut_by sizes ys) sizes ∧
  concat (cut_by sizes ys) = ys.
Proof.
  revert ys. induction sizes as [|n sizes IH]; intros ys Hlen; simpl in *.
  - split; [constructor|]. by destruct ys.
  - destruct (IH (drop n ys)) as [Hpieces Hcat].
    { rewrite length_drop. lia. }
    split.
    + constructor; [|done]. rewrite length_take. lia.
    + by rewrite Hcat, take_drop.
Qed.

Lemma batch_sampler_concat {A : Type} (batch_size : nat) (batch data : list A) :
  concat (batch_sampler batch_size batch data) = batch ++ data.
Proof.
  revert batch. induction data as [|x data IH]; intros batch; simpl.
  - destruct batch; simpl; by rewrite ?app_nil_r.
  - destruct (Nat.eqb _ _); simpl; rewrite IH; by rewrite <- app_assoc.
Qed.

(** X6. For the charges model, whose output on a batch is a 1-d array
    with one value per atom, the aggregator returns one array per
    valid molecule, in the order of the molecules, each of the length
    of its molecule's atom count; laid end to end they are the outputs
    of the batches. *)
Theorem charges_split_per_molecule (self : calculator F) (model_name : string)
    (mols : list molecule) (batch_size : nat) (loader : list (list molecule))
    (yss : list (list F)) :
  str_contains "charges" model_name = true →
  DataLoader mols batch_size = Ok loader →
  Forall2 (λ batch ys, net model_name batch = A1 ys ∧
                       length ys = sum_list (atom_counts batch)) loader yss →
  ∃ pieces,
    aggregate self model_name (_get_preds self loader model_name).1
      (_get_preds self loader model_name).2
    = Ok (VList (map A1 pieces)) ∧
    Forall2 (λ piece m, length piece = length (atoms m)) pieces mols ∧
    concat pieces = concat yss.
Proof.
  intros Hname Hloader Hnet. unfold aggregate, _get_preds. cbn [fst snd].
  rewrite Hname.
  assert (concat loader = mols) as <-.
  { unfold DataLoader in Hloader. destruct (Nat.eqb batch_size 0); [done|].
    injection Hloader as <-. by rewrite batch_sampler_concat. }
  clear Hloader.
  assert (∀ acc : list (ndarray F),
    ∃ pieces,
      fold_res
        (λ atom_y_hats (b : ndarray F * list nat),
           do parts <- split_by_ptr b.1 b.2; Ok (atom_y_hats ++ parts))
        (zip (map (net model_name) loader) (map batch_ptr loader)) acc
      = Ok (acc ++ map A1 pieces) ∧
      Forall2 (λ piece m, length piece = length (atoms m)) pieces
        (concat loader) ∧
      concat pieces = concat yss) as Hgen.
  { induction Hnet as [|batch ys loader yss [Hb Hlen] _ IH]; intros acc.
    - exists []. rewrite app_nil_r. by split_and!; [|constructor|].
    - cbn [map zip fold_res fst snd]. rewrite Hb, split_by_ptr_batch.
      cbn [rbind].
      destruct (IH (acc ++ map A1 (cut_by (atom_counts batch) ys)))
        as (pieces & -> & Hpieces & Hcat).
      destruct (cut_by_exact (atom_counts batch) ys Hlen) as [Hcut Hcutcat].
      exists (cut_by (atom_counts batch) ys ++ pieces). split_and!.
      + by rewrite map_app, app_assoc.
      + cbn [concat]. apply Forall2_app; [|done].
        unfold atom_counts in Hcut. by apply Forall2_fmap_r in Hcut.
      + by rewrite concat_app, Hcutcat, Hcat. }
  destruct (Hgen []) as (pieces & -> & Hpieces & Hcat).
  exists pieces. by split_and!.
Qed.

(** ** The result assembler: positions and errors *)

Lemma count_valid_cons (idx : nat) (idxs fatal : list nat) :
  count_valid (idx :: idxs) fatal
  = if bool_decide (idx ∈ fatal) then count_valid idxs fatal
    else S (count_valid idxs fatal).
Proof. unfold count_valid. simpl. by case_bool_decide. Qed.

Lemma fill_length (idxs fatal : list nat) (key : string)
    (src : list (pyval F)) :
  count_valid idxs fatal ≤ length src →
  length (fill idxs fatal key src) = length idxs.
Proof.
  revert src. induction idxs as [|idx idxs IH]; intros src; [done|].
  rewrite count_valid_cons. simpl. case_bool_decide; intros Hlen; simpl.
  - by rewrite IH.
  - destruct src as [|x src]; simpl in *; [lia|]. rewrite IH; [done|lia].
Qed.

Lemma fill_lookup (idxs fatal : list nat) (key : string)
    (src : list (pyval F)) (i idx : nat) :
  idxs !! i = Some idx →
  count_valid idxs fatal ≤ length src →
  fill idxs fatal key src !! i
  = if bool_decide (idx ∈ fatal) then Some (placeholder key)
    else src !! count_valid (take i idxs) fatal.
Proof.
  revert src i. induction idxs as [|idx0 idxs IH]; intros src i; [done|].
  rewrite count_valid_cons. intros Hi Hlen.
  destruct i as [|i]; simpl in Hi.
  - injection Hi as ->. simpl. case_bool_decide; [done|].
    destruct src; simpl in *; [lia|done].
  - cbn [fill take]. rewrite count_valid_cons.
    case_bool_decide; simpl.
    + by apply IH.
    + destruct src as [|x src]; simpl in *; [lia|]. apply IH; [done|lia].
Qed.

(** X7. Given a dense result with an entry for every position that is
    not fatal, the assembler returns a sequence of the length of the
    input: the placeholder at each fatal position, and at a valid
    position with [r] valid positions before it the entry at index
    [r] of the REVERSED dense result, whether the dense result is the
    array of a molecule-level task or the list of charges arrays. *)
Theorem assembler_positions (n : nat) (fatal : list nat) (key : string)
    (val : pval F) (dense : list (pyval F)) :
  (key ≠ "charges" ∧ ∃ xs, val = VArr (A1 xs) ∧ dense = map PyFloat xs) ∨
  (key = "charges" ∧ ∃ arrs, val = VList arrs ∧ dense = map PyArr arrs) →
  count_valid (seq 0 n) fatal ≤ length dense →
  ∃ out,
    assemble_key n fatal key val = Ok out ∧
    length out = n ∧
    ∀ idx, idx < n →
      out !! idx
      = if bool_decide (idx ∈ fatal) then Some (placeholder key)
        else reverse dense !! count_valid (seq 0 idx) fatal.
Proof.
  intros Hval Hlen.
  assert (assemble_key n fatal key val
          = Ok (fill (seq 0 n) fatal key (reverse dense))) as ->.
  { unfold assemble_key, assembler_val.
    destruct Hval as [(Hkey & xs & -> & ->)|(-> & arrs & -> & ->)].
    - rewrite bool_decide_eq_false_2 by done. cbn [negb rbind np_tolist].
      by rewrite assemble_loop_fill.
    - cbn [negb rbind]. simpl. by rewrite assemble_loop_fill. }
  eexists. split; [done|].
  assert (count_valid (seq 0 n) fatal ≤ length (reverse dense)) as Hrev
    by by rewrite length_reverse.
  split.
  - by rewrite fill_length, length_seq.
  - intros idx Hidx.
    rewrite (fill_lookup _ _ _ _ idx idx) by (by rewrite ?lookup_seq_lt).
    rewrite take_seq. by replace (idx `min` n) with idx by lia.
Qed.

Lemma assemble_loop_short (idxs fatal : list nat) (key : string)
    (dense temp : list (pyval F)) :
  length dense < count_valid idxs fatal →
  assemble_loop idxs fatal key (PopList dense) temp
  = Raise (IndexError "pop from empty list").
Proof.
  revert dense temp. induction idxs as [|idx idxs IH]; intros dense temp.
  - unfold count_valid. simpl. lia.
  - rewrite count_valid_cons. cbn [assemble_loop].
    case_bool_decide; intros Hlen; [by apply IH|].
    rewrite <- (reverse_involutive dense) in *.
    destruct (reverse dense) as [|x r]; [done|].
    cbn [py_pop]. rewrite list_pop_reverse. cbn [rbind]. apply IH.
    rewrite length_reverse in *. simpl in Hlen. lia.
Qed.

(** X8. A dense result with fewer entries than the input has valid
    positions makes the assembler raise [IndexError]: its [pop] finds
    the list empty. *)
Theorem assembler_dense_too_short (n : nat) (fatal : list nat) (key : string)
    (val : pval F) (dense : list (pyval F)) :
  (key ≠ "charges" ∧ ∃ xs, val = VArr (A1 xs) ∧ dense = map PyFloat xs) ∨
  (key = "charges" ∧ ∃ arrs, val = VList arrs ∧ dense = map PyArr arrs) →
  length dense < count_valid (seq 0 n) fatal →
  assemble_key n fatal key val = Raise (IndexError "pop from empty list").
Proof.
  intros Hval Hlen. unfold assemble_key, assembler_val.
  destruct Hval as [(Hkey & xs & -> & ->)|(-> & arrs & -> & ->)].
  - rewrite bool_decide_eq_false_2 by done. cbn [negb rbind np_tolist].
    by apply assemble_loop_short.
  - cbn [negb rbind]. simpl. by apply assemble_loop_short.
Qed.

Lemma assemble_loop_float (idxs fatal : list nat) (key : string) (x : F)
    (temp : list (pyval F)) :
  0 < count_valid idxs fatal →
  assemble_loop idxs fatal key (PopFloat x) temp
  = Raise (AttributeError "'float' object has no attribute 'pop'").
Proof.
  revert temp. induction idxs as [|idx idxs IH]; intros temp.
  - unfold count_valid. simpl. lia.
  - rewrite count_valid_cons. cbn [assemble_loop].
    case_bool_decide; intros Hlen; [by apply IH|done].
Qed.

(** X9. A dense result that is a 0-d array (what [squeeze] leaves of a
    one-by-one array) makes the assembler raise [AttributeError] as
    soon as the input has a valid position: [tolist()] of such an
    array is a number, which has no [pop]. When every position is
    fatal it is never popped, and the placeholders are returned. *)
Theorem assembler_zero_dim (n : nat) (fatal : list nat) (key : string)
    (x : F) :
  key ≠ "charges" →
  (0 < count_valid (seq 0 n) fatal →
   assemble_key n fatal key (VArr (A0 x))
   = Raise (AttributeError "'float' object has no attribute 'pop'")) ∧
  (count_valid (seq 0 n) fatal = 0 →
   assemble_key n fatal key (VArr (A0 x))
   = Ok (replicate n (placeholder key))).
Proof.
  intros Hkey. unfold assemble_key, assembler_val.
  rewrite bool_decide_eq_false_2 by done. cbn [negb rbind np_tolist].
  split; [apply assemble_loop_float|].
  assert (∀ idxs temp,
    count_valid idxs fatal = 0 →
    assemble_loop idxs fatal key (PopFloat x) temp
    = Ok (temp ++ replicate (length idxs) (placeholder key))) as Hgen.
  { induction idxs as [|idx idxs IH]; intros temp.
    - intros _. simpl. by rewrite app_nil_r.
    - rewrite count_valid_cons. cbn [assemble_loop].
      case_bool_decide; [|done]. intros Hc. rewrite IH by done.
      by rewrite <- app_assoc. }
  intros Hc. rewrite Hgen by done. by rewrite length_seq.
Qed.

(** ** The delta corrector: a missing baseline *)

(** X12. In delta mode, a molecule-level task for which the baseline
    tool reported nothing has an empty baseline array; with two or
    more valid molecules the addition cannot broadcast and raises
    [ValueError]. *)
Theorem delta_missing_baseline_raises
    (xtb_props : list (string * list (xval F))) (prop : string)
    (ds : list F) :
  prop ≠ "charges" →
  dict_get prop xtb_props = None →
  2 ≤ length ds →
  delta_value xtb_props prop (VArr (A1 ds)) = Raise broadcast_error.
Proof.
  intros Hprop Hget Hlen. unfold delta_value, xtb_get.
  rewrite bool_decide_eq_false_2 by done. rewrite Hget.
  cbn [default np_array_f32 mapM rbind map np_binop].
  unfold bc_row. destruct ds as [|d1 [|d2 ds]]; simpl in *; [lia..|done].
Qed.

(** ** Streaming: what it returns *)

Lemma batch_loop_ok_exhausts (self : calculator F) (fuel : nat)
    (generator : list pyobj) (batch_size : nat) (h : gmap loc molecule)
    (preds_batch pb : list (list (string * list (pyval F))))
    (g' : list pyobj) (h' : gmap loc molecule) :
  batch_loop fuel self generator batch_size h preds_batch
  = Some (Ok pb, g', h') →
  g' = [] ∧ pb ≠ [].
Proof.
  revert generator h preds_batch.
  induction fuel as [|fuel IH]; intros generator h preds_batch; [done|].
  cbn [batch_loop]. rewrite pull_spec. cbn [app].
  destruct (predict_list self _ batch_size h) as [[preds|e] h1]; [|done].
  case_bool_decide as Hdone.
  - intros [= <- <- <-]. split; [apply drop_ge; lia|].
    by destruct preds_batch.
  - apply IH.
Qed.

(** X13. Streaming always ends: for every generator and batch size
    [predict] has an outcome, and when that outcome is a result, the
    generator has been read to its end. *)
Theorem streaming_ends_and_exhausts (self : calculator F)
    (generator : list pyobj) (batch_size : nat) (h : gmap loc molecule) :
  ∃ o,
    predict self (InGenerator generator) batch_size h = Some o ∧
    (is_ok (out_result o) = true → out_generator o = []).
Proof.
  cbn [predict]. unfold _predict_batch.
  destruct (batch_loop_total self (S (length generator)) generator batch_size
              h []) as [[[r g] h'] Hloop]; [lia|].
  rewrite Hloop. destruct r as [pb|e].
  - eexists. split; [done|]. intros _. cbn [out_generator].
    by apply batch_loop_ok_exhausts in Hloop as [-> _].
  - eexists. split; [done|]. done.
Qed.

Lemma dict_set_keys {V : Type} (k k' : string) (v : V)
    (d : list (string * V)) :
  k' ∈ (dict_set k v d).*1 ↔ k' = k ∨ k' ∈ d.*1.
Proof.
  induction d as [|[k0 v0] d IH]; simpl.
  - rewrite list_elem_of_singleton. split; [auto|].
    by intros [?|?%elem_of_nil].
  - case_bool_decide; simplify_eq; simpl; rewrite !elem_of_cons.
    + tauto.
    + rewrite IH. tauto.
Qed.

Lemma collect_keys_charges
    (preds_batch : list (list (string * list (pyval F))))
    (keys : list string) (acc d : list (string * list (pyval F))) :
  preds_batch ≠ [] →
  fold_res (collect_key preds_batch) keys acc = Ok d →
  ∀ key, key ∈ d.*1 → key ∈ acc.*1 ∨ key = "charges".
Proof.
  intros Hpb. revert acc.
  induction keys as [|k keys IH]; intros acc; simpl.
  - intros [= <-]. auto.
  - unfold collect_key at 1.
    destruct (fold_res (extend_step k) preds_batch []) as [vals|] eqn:Hk;
      simpl; [|done].
    assert (k = "charges") as ->.
    { destruct preds_batch as [|first rest]; [done|]. simpl in Hk.
      unfold extend_step at 1 in Hk.
      destruct (dict_get k first); simpl in Hk; [|done].
      case_bool_decide; [done|]. by simpl in Hk. }
    intros Hfold key Hkey. destruct (IH _ Hfold key Hkey) as [Hin|?]; [|auto].
    apply dict_set_keys in Hin as [->|?]; auto.
Qed.

(** X14. Whatever the tasks of the calculator, a result that streaming
    returns has no key but [charges]: for any other task the
    accumulation calls [tolist()] on the list that [predict] returned
    and raises. *)
Theorem streaming_returns_only_charges (self : calculator F)
    (generator : list pyobj) (batch_size : nat) (h : gmap loc molecule)
    (o : outcome F) (d : list (string * list (pyval F))) :
  predict self (InGenerator generator) batch_size h = Some o →
  out_result o = Ok d →
  Forall (λ key, key = "charges") d.*1.
Proof.
  cbn [predict]. unfold _predict_batch.
  destruct (batch_loop _ _ _ _ _ _) as [[[[pb|e] g] h']|] eqn:Hloop; [| |done].
  - intros [= <-]. cbn [out_result]. intros Hcollect.
    apply Forall_forall. intros key Hkey.
    apply batch_loop_ok_exhausts in Hloop as [_ Hpb].
    destruct pb as [|first rest]; [done|]. unfold collect in Hcollect.
    destruct (collect_keys_charges (first :: rest) _ _ _ Hpb Hcollect key Hkey)
      as [?%elem_of_nil|?]; done.
  - intros [= <-]. done.
Qed.

(** ** The constructor: how many models, and a string for [tasks] *)

Lemma task_group_names (task name : string) :
  task_group task = Ok name →
  (name = "multitask" ∧ in_endpoints task = true) ∨
  (name = "charges" ∧ task = "charges") ∨
  (name = "single_energy" ∧ task = "E_form").
Proof.
  unfold task_group. destruct (in_endpoints task); [intros [= <-]; auto|].
  repeat case_bool_decide; intros [= <-]; auto.
Qed.

Lemma resolve_loop_inv (d : bool) (ts acc out : list string) :
  fold_res (resolve_step d) ts acc = Ok out →
  Forall recognised ts ∧
  ∀ m, m ∈ out ↔
       m ∈ acc ∨
       ∃ t name, t ∈ ts ∧ task_group t = Ok name ∧ m = name +:+ mode_suffix d.
Proof.
  revert acc. induction ts as [|t ts IH]; intros acc; simpl.
  - intros [= <-]. split; [constructor|]. intros m. split; [auto|].
    by intros [?|(? & ? & ?%elem_of_nil & _)].
  - unfold resolve_step at 1.
    destruct (task_group t) as [name|] eqn:Ht; simpl; [|done].
    intros [Hts Hout]%IH. split.
    + constructor; [|done]. unfold recognised.
      destruct (task_group_names t name Ht) as [[_ Hin]|[[_ ->]|[_ ->]]];
        [left|by right; left|by right; right].
      unfold in_endpoints in Hin. by apply bool_decide_eq_true_1 in Hin.
    + intros m. rewrite Hout, elem_of_app, list_elem_of_singleton. split.
      * intros [[?| ->]|(t' & n' & Hin & Hg & ->)]; [by left|..].
        -- right. exists t, name. by rewrite elem_of_cons; auto.
        -- right. exists t', n'. by rewrite elem_of_cons; auto.
      * intros [?|(t' & n' & [->|Hin]%elem_of_cons & Hg & ->)]; [by auto|..].
        -- left. right. congruence.
        -- right. eauto.
Qed.

Lemma init_inv (targ : tasks_arg) (d f3 ah xo vb pg : bool)
    (nt : norm_table F) (self : calculator F) :
  __init__ targ d f3 ah xo vb pg nt = Ok self →
  let ts := iter_tasks (expand_tasks targ) in
  Forall recognised ts ∧
  delta self = d ∧
  multitasks self = List.filter in_endpoints ts ∧
  NoDup (models self) ∧
  ∀ m, m ∈ models self ↔
       ∃ t name, t ∈ ts ∧ task_group t = Ok name ∧ m = name +:+ mode_suffix d.
Proof.
  intros Hinit ts. unfold __init__ in Hinit. fold ts in Hinit.
  destruct (fold_res (resolve_step d) ts []) as [names|] eqn:Hnames;
    simpl in Hinit; [|done].
  injection Hinit as <-. cbn [delta multitasks models].
  apply resolve_loop_inv in Hnames as [Hts Hnames].
  split_and!; [done..| |].
  - unfold list_of_set. apply NoDup_elements.
  - intros m. unfold list_of_set.
    rewrite elem_of_elements, elem_of_list_to_set, Hnames. split; [|auto].
    by intros [?%elem_of_nil|?].
Qed.

(** X15. However many tasks are requested, the constructor resolves at
    most three models, each once: one of the multitask, the charges
    and the single-energy model of the mode. *)
Theorem at_most_three_models (targ : tasks_arg) (d f3 ah xo vb pg : bool)
    (nt : norm_table F) (self : calculator F) :
  __init__ targ d f3 ah xo vb pg nt = Ok self →
  NoDup (models self) ∧
  length (models self) ≤ 3 ∧
  ∀ m, m ∈ models self →
       m = "multitask" +:+ mode_suffix d ∨
       m = "charges" +:+ mode_suffix d ∨
       m = "single_energy" +:+ mode_suffix d.
Proof.
  intros (_ & _ & _ & Hnd & Hm)%init_inv.
  assert (∀ m, m ∈ models self →
               m ∈ ["multitask" +:+ mode_suffix d; "charges" +:+ mode_suffix d;
                    "single_energy" +:+ mode_suffix d]) as Hsub.
  { intros m (t & name & _ & Hg & ->)%Hm.
    destruct (task_group_names t name Hg) as [[-> _]|[[-> _]|[-> _]]];
      rewrite !elem_of_cons; auto. }
  split_and!; [done| |].
  - apply (submseteq_length _ _ (NoDup_submseteq _ _ Hnd Hsub)).
  - intros m Hin%Hsub. rewrite !elem_of_cons in Hin.
    destruct Hin as [?|[?|[?|?%elem_of_nil]]]; auto. done.
Qed.

(** X16. A task given as a plain string is iterated character by
    character: unless it is ["all"] (or its first character is a key of
    the endpoint table), the constructor raises the unrecognised-task
    error for that first character. *)
Theorem string_task_is_read_by_character (c : ascii) (rest : string)
    (d f3 ah xo vb pg : bool) (nt : norm_table F) :
  String c rest ≠ "all" →
  MULTITASK_ENDPOINTS !! String c "" = None →
  __init__ (TasksStr (String c rest)) d f3 ah xo vb pg nt
  = Raise (ValueError ("Task name `" +:+ String c "" +:+ "` not recognised")).
Proof.
  intros Hall Hmt.
  assert (expand_tasks (TasksStr (String c rest)) = TasksStr (String c rest))
    as Hexp.
  { unfold expand_tasks. cbn [tasks_arg_eqb].
    by rewrite bool_decide_eq_false_2. }
  assert (task_group (String c "")
          = Raise (ValueError
                     ("Task name `" +:+ String c "" +:+ "` not recognised")))
    as Hgroup.
  { apply task_group_unrecognised. unfold recognised. rewrite Hmt.
    intros [[? ?]|[?|?]]; done. }
  unfold __init__. rewrite Hexp. cbn [iter_tasks str_chars fold_res].
  unfold resolve_step at 1. by rewrite Hgroup.
Qed.

(** ** The keys of a result *)

Lemma model_loop_keys (self : calculator F) (loader : list (list molecule))
    (ms : list string) (acc preds : list (string * pval F)) :
  fold_res (model_step self loader) ms acc = Ok preds →
  ∀ k, k ∈ preds.*1 ↔ k ∈ ms ∨ k ∈ acc.*1.
Proof.
  revert acc. induction ms as [|m ms IH]; intros acc; simpl.
  - intros [= <-] k. split; [auto|]. by intros [?%elem_of_nil|?].
  - unfold model_step at 1. cbn [_get_preds].
    destruct (aggregate self m _ _) as [p|]; simpl; [|done].
    intros Hfold k. rewrite (IH _ Hfold), dict_set_keys, elem_of_cons. tauto.
Qed.

Lemma multitask_loop_keys (v : pval F) (mts : list string)
    (pf0 pf1 : list (string * pval F)) :
  fold_res
    (λ preds_filtered task,
       match MULTITASK_ENDPOINTS !! task with
       | None => Raise (KeyError task)
       | Some k =>
           do col <- pval_column v k;
           Ok (dict_set task col preds_filtered)
       end) mts pf0
  = Ok pf1 →
  ∀ key, key ∈ pf1.*1 ↔ key ∈ mts ∨ key ∈ pf0.*1.
Proof.
  revert pf0. induction mts as [|t mts IH]; intros pf0; simpl.
  - intros [= <-] k. split; [auto|]. by intros [?%elem_of_nil|?].
  - destruct (MULTITASK_ENDPOINTS !! t) as [k|]; simpl; [|done].
    destruct (pval_column v k) as [col|]; simpl; [|done].
    intros Hfold key. rewrite (IH _ Hfold), dict_set_keys, elem_of_cons. tauto.
Qed.

Lemma route_step_keys (self : calculator F) (pf pf' : list (string * pval F))
    (entry : string * pval F) :
  route_step self pf entry = Ok pf' →
  ∀ key, key ∈ pf'.*1 ↔ routes_to self entry.1 key ∨ key ∈ pf.*1.
Proof.
  unfold route_step, routes_to.
  case_bool_decide as H1; [|case_bool_decide as H2; [|case_bool_decide as H3]].
  - destruct (pval_squeeze entry.2); simpl; [|done]. intros [= <-] key.
    rewrite dict_set_keys, H1. split; [intros [->|?]; auto|].
    intros [[[_ ->]|[[? _]|[? _]]]|?]; auto; done.
  - intros Hfold key. rewrite (multitask_loop_keys _ _ _ _ Hfold), H2.
    split; [intros [?|?]; auto|].
    intros [[[? _]|[[_ ?]|[? _]]]|?]; auto; done.
  - intros [= <-] key. rewrite dict_set_keys, H3.
    split; [intros [->|?]; auto|].
    intros [[[? _]|[[? _]|[_ ->]]]|?]; auto; done.
  - intros [= <-] key. split; [auto|].
    intros [[[? _]|[[? _]|[? _]]]|?]; done.
Qed.

Lemma route_loop_keys (self : calculator F)
    (preds acc pf : list (string * pval F)) :
  fold_res (route_step self) preds acc = Ok pf →
  ∀ key, key ∈ pf.*1 ↔
         (∃ mn, mn ∈ preds.*1 ∧ routes_to self mn key) ∨ key ∈ acc.*1.
Proof.
  revert acc. induction preds as [|e preds IH]; intros acc; simpl.
  - intros [= <-] key. split; [auto|].
    by intros [(? & ?%elem_of_nil & _)|?].
  - destruct (route_step self acc e) as [acc'|] eqn:He; simpl; [|done].
    intros Hfold key.
    rewrite (IH _ Hfold), (route_step_keys _ _ _ _ He). split.
    + intros [(mn & Hin & Hr)|[Hr|?]]; [|by left; exists e.1; rewrite elem_of_cons; auto|by right].
      left. exists mn. rewrite elem_of_cons. auto.
    + intros [(mn & [->|Hin]%elem_of_cons & Hr)|?]; [by auto| |by auto].
      left. eauto.
Qed.

Lemma delta_correct_keys (xtb_props : list (string * list (xval F)))
    (pf pf' : list (string * pval F)) :
  delta_correct xtb_props pf = Ok pf' → pf'.*1 = pf.*1.
Proof.
  unfold delta_correct. revert pf'.
  induction pf as [|[k v] pf IH]; intros pf'; simpl.
  - by intros [= <-].
  - destruct (delta_value xtb_props k v); simpl; [|done].
    destruct (map_res _ pf) as [rest|]; simpl; [|done].
    intros [= <-]. simpl. f_equal. by apply IH.
Qed.

Lemma assemble_keys (n : nat) (fatal : list nat)
    (pf : list (string * pval F)) (acc d : list (string * list (pyval F))) :
  fold_res
    (λ preds_final (entry : string * pval F),
       do temp <- assemble_key n fatal entry.1 entry.2;
       Ok (dict_set entry.1 temp preds_final)) pf acc
  = Ok d →
  ∀ key, key ∈ d.*1 ↔ key ∈ pf.*1 ∨ key ∈ acc.*1.
Proof.
  revert acc. induction pf as [|[k v] pf IH]; intros acc; simpl.
  - intros [= <-] key. split; [auto|]. by intros [?%elem_of_nil|?].
  - destruct (assemble_key n fatal k v); simpl; [|done].
    intros Hfold key. rewrite (IH _ Hfold), dict_set_keys, elem_of_cons. tauto.
Qed.

Lemma rsplit_model_name (name : string) (d : bool) :
  name = "multitask" ∨ name = "charges" ∨ name = "single_energy" →
  rsplit1_first (name +:+ mode_suffix d) = name.
Proof. intros [-> | [-> | ->]]; by destruct d. Qed.

(** X17. Whenever [predict] on a list returns, for a calculator that
    the constructor built, the keys of the result are exactly the
    requested tasks. *)
Theorem result_keys_are_tasks (targ : tasks_arg) (d f3 ah xo vb pg : bool)
    (nt : norm_table F) (self : calculator F) (input_ : list pyobj)
    (batch_size : nat) (h : gmap loc molecule)
    (preds_final : list (string * list (pyval F))) (key : string) :
  __init__ targ d f3 ah xo vb pg nt = Ok self →
  (predict_list self input_ batch_size h).1 = Ok preds_final →
  key ∈ preds_final.*1 ↔ key ∈ iter_tasks (expand_tasks targ).
Proof.
  intros (Hts & _ & Hmts & _ & Hmodels)%init_inv.
  set (ts := iter_tasks (expand_tasks targ)) in *.
  unfold predict_list. destruct (_preprocess self input_ h) as [st|]; [|done].
  cbn [fst]. unfold predict_valid.
  destruct (if delta self then _ else _) as [xtb_props|]; [|done]. simpl.
  destruct (DataLoader _ _) as [loader|]; [|done]. simpl.
  destruct (fold_res (model_step _ _) _ _) as [preds|] eqn:Hpreds; [|done].
  simpl.
  destruct (fold_res (route_step _) _ _) as [pf|] eqn:Hpf; [|done]. simpl.
  destruct (if delta self then _ else _) as [pf'|] eqn:Hpf'; [|done]. simpl.
  intros Hasm. rewrite (assemble_keys _ _ _ _ _ Hasm).
  assert (pf'.*1 = pf.*1) as ->.
  { destruct (delta self); [by apply delta_correct_keys in Hpf'|congruence]. }
  rewrite (route_loop_keys _ _ _ _ Hpf).
  assert (∀ t, t ∈ multitasks self ↔ t ∈ ts ∧ in_endpoints t = true) as Hmt.
  { intros t. rewrite Hmts, !list_elem_of_In. apply filter_In. }
  split.
  - intros [[(mn & Hmn & Hr)|?%elem_of_nil]|?%elem_of_nil]; [|done..].
    apply (model_loop_keys _ _ _ _ _ Hpreds) in Hmn
      as [Hmn|?%elem_of_nil]; [|done].
    apply Hmodels in Hmn as (t & name & Hin & Hg & ->).
    apply task_group_names in Hg as Hname.
    unfold routes_to in Hr. rewrite rsplit_model_name in Hr by tauto.
    destruct Hr as [[-> ->]|[[-> Hk]|[-> ->]]].
    + destruct Hname as [[? _]|[[? _]|[_ <-]]]; done.
    + by apply Hmt in Hk as [? _].
    + destruct Hname as [[? _]|[[_ <-]|[? _]]]; done.
  - intros Hin. left. left.
    rewrite Forall_forall in Hts. specialize (Hts key Hin).
    destruct (task_group_recognised key Hts) as [name Hg].
    exists (name +:+ mode_suffix d). split.
    + apply (model_loop_keys _ _ _ _ _ Hpreds). left. apply Hmodels. eauto.
    + apply task_group_names in Hg as Hname. unfold routes_to.
      rewrite rsplit_model_name by tauto.
      destruct Hname as [[-> Hep]|[[-> ->]|[-> ->]]]; [|tauto..].
      right. left. split; [done|]. by apply Hmt.
Qed.

(** ** Direct mode and the baseline tool *)

Lemma predict_list_direct
    (xtb : molecule → bool → result (list (string * xval F)))
    (self : calculator F) (input_ : list pyobj) (batch_size : nat)
    (h : gmap loc molecule) :
  delta self = false →
  predict_list (E := with_xtb xtb) self input_ batch_size h
  = predict_list self input_ batch_size h.
Proof.
  intros Hdelta. unfold predict_list, predict_valid. rewrite Hdelta.
  reflexivity.
Qed.

Lemma batch_loop_direct
    (xtb : molecule → bool → result (list (string * xval F)))
    (self : calculator F) (fuel : nat) (generator : list pyobj)
    (batch_size : nat) (h : gmap loc molecule)
    (preds_batch : list (list (string * list (pyval F)))) :
  delta self = false →
  batch_loop (E := with_xtb xtb) fuel self generator batch_size h preds_batch
  = batch_loop fuel self generator batch_size h preds_batch.
Proof.
  intros Hdelta. revert generator h preds_batch.
  induction fuel as [|fuel IH]; intros generator h preds_batch; [done|].
  cbn [batch_loop]. destruct (pull batch_size generator []) as [[mols g] done_flag].
  rewrite predict_list_direct by done.
  destruct (predict_list self mols batch_size h) as [[preds|e] h']; [|done].
  destruct done_flag; [done|]. apply IH.
Qed.

(** X18. In direct mode [predict] never consults the baseline tool:
    with any other tool in its place, one that always fails included,
    the outcome is the same for every input. *)
Theorem direct_mode_ignores_baseline
    (xtb : molecule → bool → result (list (string * xval F)))
    (self : calculator F) (input_ : input) (batch_size : nat)
    (h : gmap loc molecule) :
  delta self = false →
  predict (E := with_xtb xtb) self input_ batch_size h
  = predict self input_ batch_size h.
Proof.
  intros Hdelta. destruct input_ as [l|mols|generator|type_repr];
    cbn [predict].
  - by rewrite predict_list_direct.
  - by rewrite predict_list_direct.
  - unfold _predict_batch. by rewrite batch_loop_direct.
  - done.
Qed.


End Properties.

(** * The calculator at work *)

(** ** Where the code departs from its description *)

(** C1. Water (three atoms) and methane (five atoms) are both valid.
    The energy network returns the number of atoms, so the dense result
    is [3; 5] in the order of the valid molecules; [predict] returns
    [5; 3]: the assembler takes its entries with [val.pop()], from the
    end of the dense result, and water receives the prediction of
    methane. *)
Theorem assembler_pops_from_the_end :
  Scenario.network "single_energy_direct" [Scenario.water; Scenario.methane]
  = A2 [[3]; [5]]%Z ∧
  Scenario.run ["E_form"] false (InList [PyMolecule 1; PyMolecule 2]%positive) 32
  = Some (Ok [("E_form", [PyFloat 5%Z; PyFloat 3%Z])]).
Proof. split; vm_compute; reflexivity. Qed.

(** C2. On an input whose only molecule is fatal (ammonium, charged),
    no batch is run, [np.vstack] receives an empty list and [predict]
    raises: there is no output sequence of length one. *)
Theorem all_fatal_input_raises :
  match _preprocess Scenario.energy_delta [PyMolecule 3%positive] Scenario.lab
  with
  | Ok st => fatal st = [0] ∧ idx_charged st = [0]
  | Raise _ => False
  end ∧
  Scenario.run ["E_form"] true (InList [PyMolecule 3%positive]) 32
  = Some (Raise (ValueError "need at least one array to concatenate")).
Proof. split; [|vm_compute; reflexivity]. vm_compute. by split. Qed.

(** With one valid molecule and the direct energy model, [squeeze]
    leaves a 0-d array, whose [tolist()] is a number and has no
    [pop]. *)
Lemma single_valid_direct_energy_raises :
  Scenario.run ["E_form"] false (InList [PyMolecule 1%positive]) 32
  = Some (Raise (AttributeError "'float' object has no attribute 'pop'")).
Proof. vm_compute. reflexivity. Qed.

(** C3. A stream of two molecules read with [batch_size = 2]: after
    the full chunk the loop pulls an empty one and calls [predict] on
    it, which raises "No molecules provided."; nothing is returned. *)
Theorem streaming_exact_multiple_fails :
  Scenario.run ["charges"] false
    (InGenerator [PyMolecule 1; PyMolecule 2]%positive) 2
  = Some (Raise (ValueError "No molecules provided.")).
Proof. vm_compute. reflexivity. Qed.

(** A stream whose length is no multiple of [batch_size] is read to
    its end for the charges task; for any other task the accumulation
    calls [tolist()] on the list that [predict] returned. *)
Lemma streaming_three_by_two :
  Scenario.run ["charges"] false
    (InGenerator [PyMolecule 1; PyMolecule 2; PyMolecule 1]%positive) 2
  = Some (Ok [("charges",
               [PyArr (A1 [6; 1; 1; 1; 1]%Z); PyArr (A1 [8; 1; 1]%Z);
                PyArr (A1 [8; 1; 1]%Z)])]) ∧
  Scenario.run ["E_form"] true
    (InGenerator [PyMolecule 1; PyMolecule 2; PyMolecule 1]%positive) 2
  = Some (Raise (AttributeError "'list' object has no attribute 'tolist'")).
Proof. split; vm_compute; reflexivity. Qed.

(** C4. In delta mode, on water and methane: the charges network
    returns the atomic numbers and the baseline ten times as much, the
    energy network the number of atoms and the baseline a hundred times
    as much. The sums are right in the dense result, and reach the
    wrong molecule: water, of three atoms, is given the five charges
    and the energy of methane. *)
Theorem delta_sums_reach_the_other_molecule :
  length (atoms Scenario.water) = 3 ∧
  Scenario.run ["charges"] true (InList [PyMolecule 1; PyMolecule 2]%positive) 32
  = Some (Ok [("charges",
               [PyArr (A1 [66; 11; 11; 11; 11]%Z);
                PyArr (A1 [88; 11; 11]%Z)])]) ∧
  Scenario.run ["E_form"] true (InList [PyMolecule 1; PyMolecule 2]%positive) 32
  = Some (Ok [("E_form", [PyFloat 505%Z; PyFloat 303%Z])]).
Proof. split_and!; vm_compute; reflexivity. Qed.

(** ** The theorems at concrete inputs *)

Lemma resolver_maps_or_raises_witness :
  (∃ self,
     __init__ (TasksList ["all"]) true true true false false false
       Scenario.norm_pt = Ok self ∧
     delta self = true ∧
     NoDup (models self) ∧
     ∀ m, m ∈ models self ↔
          (∃ t, t ∈ _ALLTASKS ∧ is_Some (Scenario.endpoints !! t) ∧
                m = "multitask" +:+ "_delta") ∨
          ("charges" ∈ _ALLTASKS ∧ m = "charges" +:+ "_delta") ∨
          ("E_form" ∈ _ALLTASKS ∧ m = "single_energy" +:+ "_delta")) ∧
  __init__ (TasksList ["E_homo"; "E_total"; "charges"]) true true true false
    false false Scenario.norm_pt
  = Raise (ValueError "Task name `E_total` not recognised").
Proof.
  assert (Scenario.endpoints !! "charges" = None) as Hch
    by (vm_compute; reflexivity).
  assert (Scenario.endpoints !! "E_form" = None) as Hef
    by (vm_compute; reflexivity).
  assert (∀ t k, Scenario.endpoints !! t = Some k → recognised t) as Hmt.
  { intros t k Ht. left. by exists k. }
  assert (iter_tasks (expand_tasks (TasksList ["all"])) = _ALLTASKS) as Hall
    by (vm_compute; reflexivity).
  assert (iter_tasks (expand_tasks (TasksList ["E_homo"; "E_total"; "charges"]))
          = ["E_homo"] ++ "E_total" :: ["charges"]) as Hbad
    by (vm_compute; reflexivity).
  pose proof (resolver_maps_or_raises (E := Scenario.world) (TasksList ["all"])
                true true true false false false Scenario.norm_pt Hch Hef)
    as Hgood.
  cbv zeta in Hgood. rewrite Hall in Hgood. destruct Hgood as [Hgood _].
  split.
  - apply Hgood. unfold _ALLTASKS.
    apply List.Forall_cons; [right; right; reflexivity|].
    do 4 (apply List.Forall_cons; [eapply Hmt; vm_compute; reflexivity|]).
    apply List.Forall_cons; [right; left; reflexivity|]. apply List.Forall_nil.
  - apply (proj2 (resolver_maps_or_raises (E := Scenario.world)
                    (TasksList ["E_homo"; "E_total"; "charges"]) true true
                    true false false false Scenario.norm_pt Hch Hef)
             ["E_homo"] "E_total" ["charges"] Hbad).
    + apply List.Forall_cons; [|apply List.Forall_nil].
      eapply Hmt. vm_compute. reflexivity.
    + intros [[k Hk]|[Heq|Heq]]; [|discriminate Heq..].
      vm_compute in Hk. discriminate Hk.
Defined.

Lemma checks_short_circuit_witness :
  (events_of 2 (trace Scenario.mixed_validated) = [Structure] ∧
   2 ∈ idx_non_valid_mols Scenario.mixed_validated ∧
   2 ∈ fatal Scenario.mixed_validated ∧
   (2 ∉ idx_non_valid_atypes Scenario.mixed_validated) ∧
   (2 ∉ idx_charged Scenario.mixed_validated) ∧
   (2 ∉ idx_no3d Scenario.mixed_validated) ∧
   (2 ∉ idx_noh Scenario.mixed_validated)) ∧
  (events_of 4 (trace Scenario.mixed_validated) = [Structure; AtomType] ∧
   4 ∈ idx_non_valid_atypes Scenario.mixed_validated ∧
   4 ∈ fatal Scenario.mixed_validated ∧
   (4 ∉ idx_non_valid_mols Scenario.mixed_validated) ∧
   (4 ∉ idx_charged Scenario.mixed_validated) ∧
   (4 ∉ idx_no3d Scenario.mixed_validated) ∧
   (4 ∉ idx_noh Scenario.mixed_validated)) ∧
  (events_of 3 (trace Scenario.mixed_validated)
   = [Structure; AtomType; Charge] ∧
   3 ∈ idx_charged Scenario.mixed_validated ∧
   3 ∈ fatal Scenario.mixed_validated ∧
   (3 ∉ idx_non_valid_mols Scenario.mixed_validated) ∧
   (3 ∉ idx_non_valid_atypes Scenario.mixed_validated) ∧
   (3 ∉ idx_no3d Scenario.mixed_validated) ∧
   (3 ∉ idx_noh Scenario.mixed_validated)) ∧
  (events_of 0 (trace Scenario.mixed_validated)
   = [Structure; AtomType; Charge; Geometry; Hydrogen] ∧
   (0 ∉ idx_non_valid_mols Scenario.mixed_validated) ∧
   (0 ∉ idx_non_valid_atypes Scenario.mixed_validated) ∧
   (0 ∉ idx_charged Scenario.mixed_validated)).
Proof.
  split; [|split; [|split]].
  - apply (checks_short_circuit (E := Scenario.world) Scenario.charges_direct
             Scenario.mixed_input Scenario.lab Scenario.mixed_validated 2
             PyOther eq_refl eq_refl).
    reflexivity.
  - pose proof (checks_short_circuit (E := Scenario.world)
                  Scenario.charges_direct Scenario.mixed_input Scenario.lab
                  Scenario.mixed_validated 4 (PyMolecule 6%positive) eq_refl
                  eq_refl) as (_ & Hcase & _).
    apply (Hcase 6%positive); vm_compute; reflexivity.
  - pose proof (checks_short_circuit (E := Scenario.world)
                  Scenario.charges_direct Scenario.mixed_input Scenario.lab
                  Scenario.mixed_validated 3 (PyMolecule 3%positive) eq_refl
                  eq_refl) as (_ & _ & Hcase & _).
    apply (Hcase 3%positive); vm_compute; reflexivity.
  - pose proof (checks_short_circuit (E := Scenario.world)
                  Scenario.charges_direct Scenario.mixed_input Scenario.lab
                  Scenario.mixed_validated 0 (PyMolecule 5%positive) eq_refl
                  eq_refl) as (_ & _ & _ & Hcase).
    apply (Hcase 5%positive); vm_compute; reflexivity.
Defined.

Lemma baseline_failure_aborts_witness :
  ∃ m e,
    m ∈ map (mol_of (store Scenario.bromo_validated))
          (good_mols Scenario.bromo_input Scenario.bromo_validated) ∧
    run_xtb_calc m (xtbopt Scenario.energy_delta) = Raise e ∧
    predict Scenario.energy_delta (InList Scenario.bromo_input) 32 Scenario.lab
    = Some (Outcome (Raise e) [] (store Scenario.bromo_validated)).
Proof.
  apply (baseline_failure_aborts (E := Scenario.world) Scenario.energy_delta Scenario.bromo_input 32
           Scenario.lab Scenario.bromo_validated eq_refl eq_refl).
  exists Scenario.bromomethane. split; [|reflexivity].
  assert (map (mol_of (store Scenario.bromo_validated))
            (good_mols Scenario.bromo_input Scenario.bromo_validated)
          = [Scenario.water; Scenario.bromomethane; Scenario.methane]) as ->.
  { vm_compute. reflexivity. }
  apply list_elem_of_further, list_elem_of_here.
Defined.

Lemma validation_mutates_by_embedding_only_witness :
  (∀ (hc : gmap loc molecule) (checked l' : loc),
     l' ∈ dom hc →
     let hc' := (_hydrogencheck Scenario.charges_direct hc checked).2 in
     hc' !! l' = hc !! l' ∧
     atoms (hc' !!! l') = atoms (hc !!! l') ∧
     count_hydrogens (hc' !!! l') = count_hydrogens (hc !!! l')) ∧
  ∃ k,
    store Scenario.mixed_validated !! 5%positive
    = Some (Nat.iter k Scenario.make3D Scenario.bare_oxygen) ∧
    (k ≠ 0 →
     force3d Scenario.charges_direct = true ∧
     PyMolecule 5%positive ∈ Scenario.mixed_input ∧
     dim Scenario.bare_oxygen ≠ 3%Z).
Proof.
  exact (validation_mutates_by_embedding_only (E := Scenario.world)
           Scenario.charges_direct
           Scenario.mixed_input Scenario.lab Scenario.mixed_validated
           5%positive Scenario.bare_oxygen eq_refl eq_refl).
Defined.

(** ** Further theorems at concrete inputs *)

Lemma fatal_indices_partition_witness :
  StronglySorted lt (fatal Scenario.mixed_validated) ∧
  Forall (λ i, i < length Scenario.mixed_input)
    (fatal Scenario.mixed_validated) ∧
  length (good_mols Scenario.mixed_input Scenario.mixed_validated)
  + length (fatal Scenario.mixed_validated)
  = length Scenario.mixed_input.
Proof.
  exact (fatal_indices_partition (E := Scenario.world) Scenario.charges_direct
           Scenario.mixed_input Scenario.lab Scenario.mixed_validated eq_refl).
Defined.

Lemma good_mols_are_molecules_witness :
  sublist (good_mols Scenario.mixed_input Scenario.mixed_validated)
    Scenario.mixed_input ∧
  ∀ o, o ∈ good_mols Scenario.mixed_input Scenario.mixed_validated →
       ∃ l, o = PyMolecule l.
Proof.
  exact (good_mols_are_molecules (E := Scenario.world) Scenario.charges_direct
           Scenario.mixed_input Scenario.lab Scenario.mixed_validated eq_refl).
Defined.

Lemma fatal_iff_diagnostics_witness :
  0 ∈ fatal Scenario.flat_validated ↔
  0 ∈ idx_non_valid_mols Scenario.flat_validated ∨
  0 ∈ idx_non_valid_atypes Scenario.flat_validated ∨
  0 ∈ idx_charged Scenario.flat_validated ∨
  (addh Scenario.charges_flat = false ∧
   0 ∈ idx_no3d Scenario.flat_validated ∧
   0 ∈ idx_noh Scenario.flat_validated).
Proof.
  exact (fatal_iff_diagnostics (E := Scenario.world) Scenario.charges_flat
           Scenario.mixed_input Scenario.lab Scenario.flat_validated 0
           eq_refl).
Defined.

Lemma no_force3d_no_mutation_witness :
  store Scenario.flat_validated !! 5%positive = Some Scenario.bare_oxygen.
Proof.
  exact (no_force3d_no_mutation (E := Scenario.world) Scenario.charges_flat
           Scenario.mixed_input Scenario.lab Scenario.flat_validated
           5%positive Scenario.bare_oxygen eq_refl eq_refl eq_refl).
Defined.

Lemma xtb_props_in_molecule_order_witness :
  ∃ xtb_props,
    _get_xtb_props Scenario.energy_delta [Scenario.water; Scenario.methane]
    = Ok xtb_props ∧
    ∀ prop,
      xtb_get prop xtb_props
      = omap (λ m, dict_get prop (Scenario.xtb_outputs m))
          [Scenario.water; Scenario.methane].
Proof.
  apply (xtb_props_in_molecule_order (E := Scenario.world)
           Scenario.energy_delta [Scenario.water; Scenario.methane]
           Scenario.xtb_outputs).
  assert (∀ m, NoDup (Scenario.xtb_outputs m).*1) as Hnd.
  { intros m. apply (bool_decide_unpack _). vm_compute. exact I. }
  apply List.Forall_cons; [split; [vm_compute; reflexivity|apply Hnd]|].
  apply List.Forall_cons; [split; [vm_compute; reflexivity|apply Hnd]|].
  apply List.Forall_nil.
Defined.

Lemma charges_split_per_molecule_witness :
  ∃ pieces,
    aggregate Scenario.charges_direct "charges_direct"
      (_get_preds Scenario.charges_direct
         [[Scenario.water; Scenario.methane]] "charges_direct").1
      (_get_preds Scenario.charges_direct
         [[Scenario.water; Scenario.methane]] "charges_direct").2
    = Ok (VList (map A1 pieces)) ∧
    Forall2 (λ piece m, length piece = length (atoms m)) pieces
      [Scenario.water; Scenario.methane] ∧
    concat pieces = concat [[8; 1; 1; 6; 1; 1; 1; 1]%Z].
Proof.
  apply (charges_split_per_molecule (E := Scenario.world)
           Scenario.charges_direct "charges_direct"
           [Scenario.water; Scenario.methane] 32
           [[Scenario.water; Scenario.methane]]
           [[8; 1; 1; 6; 1; 1; 1; 1]%Z]).
  - vm_compute. reflexivity.
  - vm_compute. reflexivity.
  - constructor; [|constructor]. split; vm_compute; reflexivity.
Defined.

Lemma assembler_positions_witness :
  ∃ out,
    assemble_key (E := Scenario.world) 3 [1] "E_form" (VArr (A1 [10; 20]%Z))
    = Ok out ∧
    length out = 3 ∧
    ∀ idx, idx < 3 →
      out !! idx
      = if bool_decide (idx ∈ [1]) then Some (placeholder "E_form")
        else reverse (map PyFloat [10; 20]%Z) !! count_valid (seq 0 idx) [1].
Proof.
  apply (assembler_positions (E := Scenario.world) 3 [1] "E_form"
           (VArr (A1 [10; 20]%Z)) (map PyFloat [10; 20]%Z)).
  - left. split; [done|]. by eexists.
  - vm_compute. lia.
Defined.

Lemma assembler_dense_too_short_witness :
  assemble_key (E := Scenario.world) 3 [] "E_form" (VArr (A1 [10; 20]%Z))
  = Raise (IndexError "pop from empty list").
Proof.
  apply (assembler_dense_too_short (E := Scenario.world) 3 [] "E_form"
           (VArr (A1 [10; 20]%Z)) (map PyFloat [10; 20]%Z)).
  - left. split; [done|]. by eexists.
  - vm_compute. lia.
Defined.

Lemma assembler_zero_dim_witness :
  (0 < count_valid (seq 0 1) [] →
   assemble_key (E := Scenario.world) 1 [] "E_form" (VArr (A0 5%Z))
   = Raise (AttributeError "'float' object has no attribute 'pop'")) ∧
  (count_valid (seq 0 1) [] = 0 →
   assemble_key (E := Scenario.world) 1 [] "E_form" (VArr (A0 5%Z))
   = Ok (replicate 1 (placeholder "E_form"))).
Proof.
  apply (assembler_zero_dim (E := Scenario.world) 1 [] "E_form" 5%Z). done.
Defined.

Lemma predict_list_shape_witness :
  length [PyFloat 5; PyFloat (-1); PyFloat 3]%Z
  = length Scenario.charged_input ∧
  ∀ idx, idx < length Scenario.charged_input →
         idx ∈ fatal Scenario.charged_validated →
         [PyFloat 5; PyFloat (-1); PyFloat 3]%Z !! idx
         = Some (placeholder (E := Scenario.world) "E_form").
Proof.
  assert ((predict_list (E := Scenario.world) Scenario.energy_direct
             Scenario.charged_input 32 Scenario.lab).1
          = Ok [("E_form", [PyFloat 5; PyFloat (-1); PyFloat 3]%Z)]) as Hres.
  { vm_compute. reflexivity. }
  exact (predict_list_shape (E := Scenario.world) Scenario.energy_direct
           Scenario.charged_input 32 Scenario.lab Scenario.charged_validated
           [("E_form", [PyFloat 5; PyFloat (-1); PyFloat 3]%Z)] eq_refl Hres
           "E_form" [PyFloat 5; PyFloat (-1); PyFloat 3]%Z eq_refl).
Defined.

Lemma predict_all_fatal_raises_witness :
  (predict_list Scenario.energy_direct [PyMolecule 3%positive] 32
     Scenario.lab).1
  = Raise (ValueError "need at least one array to concatenate").
Proof.
  apply (predict_all_fatal_raises (E := Scenario.world) Scenario.energy_direct
           [PyMolecule 3%positive] 32 Scenario.lab Scenario.cation_validated).
  - reflexivity.
  - vm_compute. reflexivity.
  - done.
  - exists "single_energy_direct". split; [apply list_elem_of_here|].
    vm_compute. reflexivity.
Defined.

Lemma delta_missing_baseline_raises_witness :
  delta_value (E := Scenario.world) [] "E_form" (VArr (A1 [1; 2]%Z))
  = Raise broadcast_error.
Proof.
  apply (delta_missing_baseline_raises (E := Scenario.world) [] "E_form"
           [1; 2]%Z); [done|reflexivity|simpl; lia].
Defined.

Lemma streaming_returns_only_charges_witness :
  Forall (λ key, key = "charges") Scenario.stream_result.*1.
Proof.
  apply (streaming_returns_only_charges (E := Scenario.world)
           Scenario.charges_direct Scenario.stream_three 2 Scenario.lab
           Scenario.stream_outcome Scenario.stream_result).
  - vm_compute. reflexivity.
  - vm_compute. reflexivity.
Defined.

Lemma at_most_three_models_witness :
  NoDup (models Scenario.three_tasks) ∧
  length (models Scenario.three_tasks) ≤ 3 ∧
  ∀ m, m ∈ models Scenario.three_tasks →
       m = "multitask" +:+ mode_suffix true ∨
       m = "charges" +:+ mode_suffix true ∨
       m = "single_energy" +:+ mode_suffix true.
Proof.
  apply (at_most_three_models (E := Scenario.world)
           (TasksList ["E_form"; "dipole"; "charges"]) true true true false
           false false Scenario.norm_pt Scenario.three_tasks).
  vm_compute. reflexivity.
Defined.

Lemma string_task_is_read_by_character_witness :
  __init__ (E := Scenario.world) (TasksStr "E_form") true true true false
    false false Scenario.norm_pt
  = Raise (ValueError ("Task name `" +:+ "E" +:+ "` not recognised")).
Proof.
  apply (string_task_is_read_by_character (E := Scenario.world) "E"%char
           "_form" true true true false false false Scenario.norm_pt).
  - done.
  - vm_compute. reflexivity.
Defined.

Lemma result_keys_are_tasks_witness :
  "dipole" ∈ Scenario.three_result.*1 ↔
  "dipole" ∈ iter_tasks (expand_tasks (TasksList ["E_form"; "dipole"; "charges"])).
Proof.
  apply (result_keys_are_tasks (E := Scenario.world)
           (TasksList ["E_form"; "dipole"; "charges"]) true true true false
           false false Scenario.norm_pt Scenario.three_tasks
           Scenario.charged_input 32 Scenario.lab Scenario.three_result
           "dipole").
  - vm_compute. reflexivity.
  - vm_compute. reflexivity.
Defined.

Lemma direct_mode_ignores_baseline_witness :
  predict (E := with_xtb (E := Scenario.world) Scenario.broken_xtb)
    Scenario.energy_direct (InList Scenario.charged_input) 32 Scenario.lab
  = predict (E := Scenario.world) Scenario.energy_direct
      (InList Scenario.charged_input) 32 Scenario.lab.
Proof.
  apply (direct_mode_ignores_baseline (E := Scenario.world)
           Scenario.broken_xtb Scenario.energy_direct
           (InList Scenario.charged_input) 32 Scenario.lab).
  reflexivity.
Defined.

Lemma streaming_exact_multiple_raises_witness :
  ∃ o,
    predict Scenario.charges_direct
      (InGenerator [PyMolecule 1; PyMolecule 2]%positive) 2 Scenario.lab
    = Some o ∧
    is_ok (out_result o) = false.
Proof.
  apply (streaming_exact_multiple_raises (E := Scenario.world)
           Scenario.charges_direct 1
           [PyMolecule 1; PyMolecule 2]%positive 2 Scenario.lab);
    [done|reflexivity].
Defined.

Lemma inv_scale_column_table_witness :
  _inv_scale Scenario.energy_direct (A2 [[1; 2]; [3; 4]]%Z)
    (NormDict (A1 [10; 100]%Z) (A1 [1; 2]%Z))
  = Ok (A2 (map (λ row, zip_with fadd (zip_with fmul row [10; 100]%Z)
                          [1; 2]%Z)
              [[1; 2]; [3; 4]]%Z)).
Proof.
  apply (inv_scale_column_table (E := Scenario.world) Scenario.energy_direct
           [[1; 2]; [3; 4]]%Z [10; 100]%Z [1; 2]%Z).
  - apply List.Forall_cons; [reflexivity|].
    apply List.Forall_cons; [reflexivity|]. apply List.Forall_nil.
  - reflexivity.
Defined.

Lemma delta_value_scalars_witness :
  delta_value (E := Scenario.world)
    [("E_form", [XScalar 300; XScalar 500]%Z)] "E_form" (VArr (A1 [3; 5]%Z))
  = Ok (VArr (A1 (zip_with fadd [3; 5]%Z (map f32 [300; 500]%Z)))).
Proof.
  apply (delta_value_scalars (E := Scenario.world)
           [("E_form", [XScalar 300; XScalar 500]%Z)] "E_form" [3; 5]%Z
           [300; 500]%Z); [done|reflexivity|reflexivity].
Defined.

Lemma delta_value_charges_witness :
  delta_value (E := Scenario.world)
    [("charges", [XVec [80; 10; 10]%Z; XVec [60; 10; 10; 10; 10]%Z])]
    "charges" (VList (map A1 [[8; 1; 1]; [6; 1; 1; 1; 1]]%Z))
  = Ok (VList (map A1 (zip_with (zip_with fadd)
                         [[8; 1; 1]; [6; 1; 1; 1; 1]]%Z
                         [[80; 10; 10]; [60; 10; 10; 10; 10]]%Z))).
Proof.
  apply (delta_value_charges (E := Scenario.world)
           [("charges", [XVec [80; 10; 10]%Z; XVec [60; 10; 10; 10; 10]%Z])]
           [[8; 1; 1]; [6; 1; 1; 1; 1]]%Z
           [[80; 10; 10]; [60; 10; 10; 10; 10]]%Z).
  - reflexivity.
  - constructor; [reflexivity|]. constructor; [reflexivity|]. constructor.
Defined.

